(** * Billing check-in gate: sessions, tokens and timers

    A shallow embedding of [app/main.py] and the services under
    [app/services/] (token codec, spreadsheet ledger, messaging), with the
    properties of the session and token lifecycle proved over it.

    Conventions of the embedding.
    - Python [str] is [string]; the character-level methods ([strip],
      [lower], [replace]) are written out for the ASCII range.
    - A [datetime] is the number of microseconds since 0001-01-01T00:00:00
      (the resolution of Python's [datetime]); a [timedelta] is a number of
      microseconds.  A float count of seconds ([total_seconds()], the
      argument of [asyncio.sleep]) is represented exactly by its number of
      microseconds, so [sec n] stands for the Python number [n].
    - Values decoded from JSON are terms of [json]; a Python dict with
      string keys that the program owns is a [gmap string _].
    - Every function takes the process state [world] and returns the new
      one; the trace field records, in order, the calls that leave the
      process (ledger, messaging, files, sleeps, spawned tasks).
    - Library code outside the repository (Fernet, base64, json, [int()],
      ISO date formatting) is a field of [pylib]; the theorems that need a
      contract of the library state it as a hypothesis.
    - Local files are written without error: the [except] branches of the
      [save_*] functions, which only print, are not modelled, nor is
      [log_debug]. *)

From stdpp Require Import gmap strings list fin_maps.
From Stdlib Require Import ZArith QArith Qround Ascii String.
From Stdlib Require Import DecimalString.
From Stdlib Require DecimalFacts DecimalPos.

Local Set Warnings "-register-all".
Local Close Scope Q_scope.
Local Open Scope Z_scope.
Local Open Scope string_scope.

(** ** Python values *)

(** What [json.loads] can return.  A float keeps its literal: the program
    never computes with one it has decoded.  The members of an object are
    those of the dict, in order, each key once. *)
Inductive json :=
| JNull
| JBool (b : bool)
| JInt (n : Z)
| JFloat (literal : string)
| JStr (s : string)
| JArr (items : list json)
| JObj (members : list (string * json)).

(** The outcome of a Python expression that may raise. *)
Inductive py (A : Type) :=
| Ok (a : A)
| Raise.
Arguments Ok {A} a.
Arguments Raise {A}.

(** [d.get(key, default)] on a decoded object. *)
Fixpoint dict_get (members : list (string * json)) (key : string) (default : json) : json :=
  match members with
  | [] => default
  | (k, v) :: rest => if String.eqb k key then v else dict_get rest key default
  end.

(** [k in d] for a dict [d] whose keys are strings: a list or a dict is
    unhashable ([TypeError]); any other value that is not a string is
    hashable and is not a key. *)
Definition py_in {V} (k : json) (d : gmap string V) : py bool :=
  match k with
  | JStr s => Ok (bool_decide (is_Some (d !! s)))
  | JArr _ | JObj _ => Raise
  | _ => Ok false
  end.

(** [d[k]] once [k in d] holds. *)
Definition py_index {V} (k : json) (d : gmap string V) : option V :=
  match k with
  | JStr s => d !! s
  | _ => None
  end.

(** [s == v] between a Python string and a decoded value. *)
Definition str_eq_json (s : string) (v : json) : bool :=
  match v with
  | JStr t => String.eqb s t
  | _ => false
  end.

(** [a == b] where [a] is a string or [None] and [b] any decoded value. *)
Definition opt_str_eq_json (a : option string) (b : json) : bool :=
  match a, b with
  | None, JNull => true
  | Some s, JStr t => String.eqb s t
  | _, _ => false
  end.

(** Truth value of an optional form field: [None] and [""] are false. *)
Definition truthy (s : option string) : bool :=
  match s with
  | None | Some "" => false
  | Some _ => true
  end.

(** ** Strings *)

(** [str.isspace] on the ASCII range: tab to carriage return, the four
    separators 28 to 31 and the space. *)
Definition is_space (c : ascii) : bool :=
  let n := nat_of_ascii c in
  ((9 <=? n)%nat && (n <=? 13)%nat) || ((28 <=? n)%nat && (n <=? 32)%nat).

Fixpoint lstrip (s : string) : string :=
  match s with
  | String c rest => if is_space c then lstrip rest else s
  | EmptyString => EmptyString
  end.

Fixpoint rstrip (s : string) : string :=
  match s with
  | String c rest =>
      match rstrip rest with
      | EmptyString => if is_space c then EmptyString else String c EmptyString
      | r => String c r
      end
  | EmptyString => EmptyString
  end.

(** [s.strip()] *)
Definition strip (s : string) : string := rstrip (lstrip s).

Definition lower_char (c : ascii) : ascii :=
  let n := nat_of_ascii c in
  if ((65 <=? n)%nat && (n <=? 90)%nat) then ascii_of_nat (n + 32) else c.

(** [s.lower()] *)
Fixpoint lower (s : string) : string :=
  match s with
  | String c rest => String (lower_char c) (lower rest)
  | EmptyString => EmptyString
  end.

(** [s.replace(c, "")] for a one-character [c]. *)
Fixpoint remove_char (c : ascii) (s : string) : string :=
  match s with
  | String d rest => if Ascii.eqb d c then remove_char c rest else String d (remove_char c rest)
  | EmptyString => EmptyString
  end.

(** [str(n)] for an integer. *)
Definition str_of_Z (n : Z) : string := NilZero.string_of_int (Z.to_int n).

Fixpoint repeat_zero (n : nat) : string :=
  match n with
  | O => EmptyString
  | S n' => String "0" (repeat_zero n')
  end.

(** [s.zfill(width)]: zeros on the left, after the sign if there is one. *)
Definition zfill (width : nat) (s : string) : string :=
  let pad := repeat_zero (width - String.length s) in
  match s with
  | String c rest =>
      if (Ascii.eqb c "+" || Ascii.eqb c "-")%bool then String c (pad ++ rest) else pad ++ s
  | EmptyString => pad
  end.

(** ** Time *)

Definition datetime := Z.

(** [n] seconds, in microseconds. *)
Definition sec (n : Z) : Z := n * 1000000.

(** [datetime.max], 9999-12-31T23:59:59.999999: the last microsecond of
    day 3652059. *)
Definition DATETIME_MAX : Z := 3652059 * 86400 * 1000000 - 1.

(** [t + timedelta(minutes=n)]: [OverflowError] when the minutes do not fit
    a [timedelta] or the sum leaves the range of [datetime]; the second test
    subsumes the first, whose bound of 999999999 days is far wider than the
    range of dates. *)
Definition add_minutes (t : datetime) (n : Z) : py datetime :=
  let r := t + sec (n * 60) in
  if bool_decide (0 <= r <= DATETIME_MAX) then Ok r else Raise.

(** ** Library code outside the repository *)

Definition bytes := list Byte.byte.

Record pylib := PyLib {
  (** [Fernet(key).encrypt(data)], with the IV and timestamp it draws *)
  fernet_encrypt : bytes -> bytes -> bytes -> bytes;
  (** [Fernet(key).decrypt(token)]; [None] is [InvalidToken] *)
  fernet_decrypt : bytes -> bytes -> option bytes;
  urlsafe_b64encode : bytes -> bytes;
  urlsafe_b64decode : bytes -> option bytes;
  json_dumps : json -> string;
  json_loads : string -> option json;
  (** [str.encode()] and [bytes.decode()] *)
  str_encode : string -> bytes;
  bytes_decode : bytes -> option string;
  (** [int(s)]; [None] is [ValueError] *)
  py_int : string -> option Z;
  (** [float(s)], as the exact number the float stands for ([nan] and
      [inf] have none and are left out) *)
  py_float : string -> option Q;
  (** [datetime.isoformat()] and [datetime.fromisoformat(s)] *)
  isoformat : datetime -> string;
  fromisoformat : string -> option datetime
}.

(** ** The process state *)

(** An entry of [active_sessions].  [restore_key] is what
    [session.get("restore_key")] returns: [None] when the key is missing or
    holds [None]. *)
Record session := Session {
  s_name : string;
  s_phone : string;
  s_transaction_id : string;
  s_duration : Z;
  s_start_time : datetime;
  s_end_time : datetime;
  s_restore_key : option string
}.

(** The texts sent over WhatsApp, by the f-string that builds them. *)
Inductive message :=
| MsgWelcome (name duration : json)
| MsgStarted (duration : Z)
| MsgWarning (warning_buffer_mins : Z)
| MsgEnded (duration : Z)
| MsgHourlyReport (date : string) (count total : Z)
| MsgServerError (path err : string)
| MsgQrCaption (name payment_mode transaction_id plan_name : string) (amount duration : Z).

(** The first worksheet of the spreadsheet: rows of cell texts. *)
Definition worksheet := list (list string).

(** The spreadsheet as [GoogleSheetService] sees it. *)
Inductive ledger :=
| NoClient                 (* [self.client] is unset and [connect()] raises *)
| ApiError                 (* connected, every call to the API raises *)
| Sheet (rows : worksheet).

(** Calls that leave the process, and the tasks it starts. *)
Inductive event :=
| SendMessage (phone : string) (msg : message) (delivered : bool)
| SendImage (phone : string) (path : string) (caption : message) (delivered : bool)
| GetEntryStatus (tid : json)
| UpdateEntryStatus (tid : json) (status : string)
| AppendRow (row : list string)
| GetStats
| WriteSessions
| WritePendingKeys
| WriteServerState
| Sleep (delay : Z)
| SpawnTimer (phone : string) (duration : Z) (tid : string) (is_resume : bool) (resume_seconds : option Z)
| SpawnHourlyStats
| SpawnProcessEntry (name phone transaction_id plan_selection payment_mode : string)
| GenerateQr (data : string).

Record world := World {
  active_sessions : gmap string session;
  pending_keys : gmap string string;
  (** sessions.json, pending_keys.json and server_state.json; [None] when
      the file is missing or cannot be read.  The state file is represented
      by its ["last_hourly_report"] entry. *)
  sessions_file : option (gmap string session);
  pending_keys_file : option (gmap string string);
  state_file : option (option string);
  sheet : ledger;
  (** whether the messaging client gets a given text through *)
  delivers : string -> message -> bool;
  trace : list event
}.

Definition set_active_sessions (m : gmap string session) (w : world) : world :=
  World m (pending_keys w) (sessions_file w) (pending_keys_file w) (state_file w)
        (sheet w) (delivers w) (trace w).
Definition set_pending_keys (m : gmap string string) (w : world) : world :=
  World (active_sessions w) m (sessions_file w) (pending_keys_file w) (state_file w)
        (sheet w) (delivers w) (trace w).
Definition set_sessions_file (f : option (gmap string session)) (w : world) : world :=
  World (active_sessions w) (pending_keys w) f (pending_keys_file w) (state_file w)
        (sheet w) (delivers w) (trace w).
Definition set_pending_keys_file (f : option (gmap string string)) (w : world) : world :=
  World (active_sessions w) (pending_keys w) (sessions_file w) f (state_file w)
        (sheet w) (delivers w) (trace w).
Definition set_state_file (f : option (option string)) (w : world) : world :=
  World (active_sessions w) (pending_keys w) (sessions_file w) (pending_keys_file w) f
        (sheet w) (delivers w) (trace w).
Definition set_sheet (l : ledger) (w : world) : world :=
  World (active_sessions w) (pending_keys w) (sessions_file w) (pending_keys_file w)
        (state_file w) l (delivers w) (trace w).
Definition emit (e : event) (w : world) : world :=
  World (active_sessions w) (pending_keys w) (sessions_file w) (pending_keys_file w)
        (state_file w) (sheet w) (delivers w) (trace w ++ [e]).

(** Both stores and their files are the same in [w] and [w']. *)
Definition same_stores (w w' : world) : Prop :=
  pending_keys w' = pending_keys w /\ active_sessions w' = active_sessions w /\
  pending_keys_file w' = pending_keys_file w /\ sessions_file w' = sessions_file w.

(** ** Persistence (main.py) *)

Definition save_sessions (w : world) : world :=
  emit WriteSessions (set_sessions_file (Some (active_sessions w)) w).

(** Every entry of the file is copied over the current map. *)
Definition load_sessions (w : world) : world :=
  match sessions_file w with
  | None => w
  | Some data => set_active_sessions (data ∪ active_sessions w) w
  end.

Definition load_server_state (w : world) : option string :=
  match state_file w with
  | Some st => st
  | None => None
  end.

Definition save_server_state (data : option string) (w : world) : world :=
  emit WriteServerState (set_state_file (Some data) w).

Definition load_pending_keys (w : world) : world :=
  match pending_keys_file w with
  | Some data => set_pending_keys data w
  | None => w
  end.

Definition save_pending_keys (w : world) : world :=
  emit WritePendingKeys (set_pending_keys_file (Some (pending_keys w)) w).

(** ** The messaging service (services/whatsapp.py) *)

(** The number as [send_message] and [send_image] address it: trimmed,
    without ["+"], [" "] and ["-"], and with the country code 91 put before
    a number of ten characters. *)
Definition clean_number (phone_number : string) : string :=
  let p := remove_char "-" (remove_char " " (remove_char "+" (strip phone_number))) in
  if (String.length p =? 10)%nat then "91" ++ p else p.

(** [whatsapp_service.send_message(phone, message)] on a string: a failed
    delivery is caught inside and reported as [False]. *)
Definition send_message (phone_number : string) (msg : message) (w : world) : bool * world :=
  let p := clean_number phone_number in
  let ok := delivers w p msg in
  (ok, emit (SendMessage p msg ok) w).

(** The same call on a decoded value: [phone_number.strip()] stands outside
    the [try], so anything but a string raises [AttributeError]. *)
Definition send_message_json (phone_number : json) (msg : message) (w : world) : py (bool * world) :=
  match phone_number with
  | JStr p => Ok (send_message p msg w)
  | _ => Raise
  end.

(** ** The ledger (services/google_sheets.py) *)

Fixpoint find_in_row (query : string) (row : list string) (col : nat) : option nat :=
  match row with
  | [] => None
  | v :: rest => if String.eqb v query then Some col else find_in_row query rest (S col)
  end.

Fixpoint find_from (query : string) (rows : worksheet) (r : nat) : option (nat * nat) :=
  match rows with
  | [] => None
  | row :: rest =>
      match find_in_row query row 1 with
      | Some c => Some (r, c)
      | None => find_from query rest (S r)
      end
  end.

(** [worksheet.find(query)]: the first cell, row by row, whose text is
    [query]; rows and columns count from 1. *)
Definition find (query : string) (rows : worksheet) : option (nat * nat) :=
  find_from query rows 1.

(** [worksheet.cell(r, c).value]; a cell past the end of its row is empty. *)
Definition cell_value (rows : worksheet) (r c : nat) : string :=
  match rows !! (r - 1)%nat with
  | Some row => default "" (row !! (c - 1)%nat)
  | None => ""
  end.

Fixpoint set_nth_pad (row : list string) (i : nat) (v : string) : list string :=
  match i, row with
  | O, [] => [v]
  | O, _ :: rest => v :: rest
  | S i', [] => "" :: set_nth_pad [] i' v
  | S i', x :: rest => x :: set_nth_pad rest i' v
  end.

(** [worksheet.update_cell(r, c, v)] on an existing row: a short row is
    filled with empty cells up to column [c]. *)
Definition update_cell (rows : worksheet) (r c : nat) (v : string) : worksheet :=
  alter (fun row => set_nth_pad row (c - 1)%nat v) (r - 1)%nat rows.

(** [GoogleSheetService.get_entry_status]: [connect()] stands outside the
    [try] and its failure reaches the caller; a failure of the API, or of
    [find] on something that is not a string, is caught and gives [None]. *)
Definition get_entry_status (transaction_id : json) (w : world) : py (option string) * world :=
  let w := emit (GetEntryStatus transaction_id) w in
  match sheet w with
  | NoClient => (Raise, w)
  | ApiError => (Ok None, w)
  | Sheet rows =>
      match transaction_id with
      | JStr tid =>
          match find tid rows with
          | Some (row, _) => (Ok (Some (cell_value rows row 5)), w)
          | None => (Ok None, w)
          end
      | _ => (Ok None, w)
      end
  end.

(** [GoogleSheetService.update_entry_status] *)
Definition update_entry_status (transaction_id : json) (new_status : string) (w : world)
  : py bool * world :=
  let w := emit (UpdateEntryStatus transaction_id new_status) w in
  match sheet w with
  | NoClient => (Raise, w)
  | ApiError => (Ok false, w)
  | Sheet rows =>
      match transaction_id with
      | JStr tid =>
          match find tid rows with
          | Some (row, _) => (Ok true, set_sheet (Sheet (update_cell rows row 7 new_status)) w)
          | None => (Ok false, w)
          end
      | _ => (Ok false, w)
      end
  end.

(** ** The token codec (services/crypto.py) *)

(** [CryptoService.encrypt]; [iv] is the randomness Fernet draws. *)
Definition encrypt (L : pylib) (key iv : bytes) (data : json) : py string :=
  let json_str := json_dumps L data in
  let encrypted_bytes := fernet_encrypt L key iv (str_encode L json_str) in
  match bytes_decode L (urlsafe_b64encode L encrypted_bytes) with
  | Some token => Ok token
  | None => Raise
  end.

(** [CryptoService.decrypt]: whatever fails inside, the caller sees the one
    [ValueError("Invalid token")], here [Raise]. *)
Definition decrypt (L : pylib) (key : bytes) (token : string) : py json :=
  match urlsafe_b64decode L (str_encode L token) with
  | None => Raise
  | Some encrypted_bytes =>
      match fernet_decrypt L key encrypted_bytes with
      | None => Raise
      | Some decrypted_bytes =>
          match bytes_decode L decrypted_bytes with
          | None => Raise
          | Some text =>
              match json_loads L text with
              | Some data => Ok data
              | None => Raise
              end
          end
      end
  end.

(** ** The verification gate (main.py, /verify) *)

(** The context handed to scan_result.html. *)
Inductive scan_result :=
| ScanError (message : string)
| ScanCheckRestore (transaction_id name phone duration plan : json)
| ScanSuccess (name transaction_id duration plan phone : json) (time : datetime).

(** [current_status and current_status.strip().lower() == "in"] *)
Definition status_is_in (current_status : option string) : bool :=
  match current_status with
  | Some s => negb (String.eqb s "") && String.eqb (lower (strip s)) "in"
  | None => false
  end.

Definition verify_entry (L : pylib) (key : bytes) (now : datetime) (token : string) (w : world)
  : scan_result * world :=
  match decrypt L key token with
  | Raise => (ScanError "Invalid or Tampered QR Code", w)
  | Ok (JObj data) =>
      let transaction_id := dict_get data "transaction_id" JNull in
      let name := dict_get data "name" JNull in
      let phone := dict_get data "phone" JNull in
      let duration := dict_get data "duration" (JInt 15) in
      let plan := dict_get data "plan" (JStr "Unknown") in
      let secure_key := dict_get data "secure_key" JNull in
      (* 1. active session first *)
      match py_in transaction_id (active_sessions w) with
      | Raise => (ScanError "Verification Processing Failed", w)
      | Ok true => (ScanCheckRestore transaction_id name phone duration plan, w)
      | Ok false =>
          (* 2. pending key; the value is hashable here, so [in] cannot raise *)
          match py_index transaction_id (pending_keys w) with
          | None =>
              match get_entry_status transaction_id w with
              | (Raise, w1) => (ScanError "Verification Processing Failed", w1)
              | (Ok current_status, w1) =>
                  if status_is_in current_status
                  then (ScanError "Entry ALREADY processed/used.", w1)
                  else (ScanError "Invalid QR Code: Transaction not found or expired.", w1)
              end
          | Some pending =>
              if negb (str_eq_json pending secure_key)
              then (ScanError "Security Check Failed: Invalid Key.", w)
              else
                match update_entry_status transaction_id "In" w with
                | (Raise, w1) => (ScanError "Verification Processing Failed", w1)
                | (Ok _, w1) =>
                    match send_message_json phone (MsgWelcome name duration) w1 with
                    | Raise => (ScanError "Verification Processing Failed", w1)
                    | Ok (_, w2) => (ScanSuccess name transaction_id duration plan phone now, w2)
                    end
                end
          end
      end
  | Ok _ =>
      (* [data.get] on anything but a dict raises, inside the first [try] *)
      (ScanError "Invalid or Tampered QR Code", w)
  end.

(** ** Settings (config.py) *)

Record Settings := {
  SHEET_URL : string;
  ADMIN_PHONE : string;
  WARNING_BUFFER_MINUTES : Z;
  ADMIN_USERNAME : string;
  ADMIN_PASSWORD : string
}.

(** ** Starting a session (main.py, /start_timer) *)

Inductive start_response :=
| StartRejected                                        (* 400, missing name or transaction_id *)
| TimerStarted (end_time : string) (duration : Z) (restore_key : string).

Definition set_restore_key (k : string) (s : session) : session :=
  Session (s_name s) (s_phone s) (s_transaction_id s) (s_duration s)
          (s_start_time s) (s_end_time s) (Some k).

(** [now] is the clock read by the handler and [fresh_key] the value drawn
    by [secrets.token_urlsafe(12)].  [Raise] is the [OverflowError] of the
    date arithmetic, which leaves the handler. *)
Definition start_timer (L : pylib) (now : datetime) (fresh_key : string)
    (phone duration : string) (name transaction_id : option string) (w : world)
  : py start_response * world :=
  match name, transaction_id with
  | Some name', Some tid =>
      if negb (truthy name) || negb (truthy transaction_id) then (Ok StartRejected, w)
      else
        let duration_int := match py_int L duration with Some n => n | None => 15 end in
        let start_time := now in
        match add_minutes start_time duration_int with
        | Raise => (Raise, w)
        | Ok end_time =>
            let w := set_active_sessions
                       (<[tid := Session name' phone tid duration_int start_time end_time None]>
                          (active_sessions w)) w in
            let w := save_sessions w in
            let w := if bool_decide (is_Some (pending_keys w !! tid))
                     then save_pending_keys (set_pending_keys (delete tid (pending_keys w)) w)
                     else w in
            let w := set_active_sessions (alter (set_restore_key fresh_key) tid (active_sessions w)) w in
            let w := save_sessions w in
            let w := emit (SpawnTimer phone duration_int tid false None) w in
            (Ok (TimerStarted (isoformat L end_time) duration_int fresh_key), w)
        end
  | _, _ => (Ok StartRejected, w)
  end.

(** ** Re-attaching to a session (main.py, /api/verify_restore) *)

Inductive restore_response :=
| Restored (end_time : string) (duration : Z) (start_time : string)
| RestoreDenied                                        (* 403 *)
| RestoreServerError.                                  (* 500 *)

(** [body] is the outcome of [request.json()]. *)
Definition verify_restore (L : pylib) (body : py json) (w : world) : restore_response * world :=
  match body with
  | Raise => (RestoreServerError, w)
  | Ok (JObj data) =>
      let transaction_id := dict_get data "transaction_id" JNull in
      let restore_key := dict_get data "restore_key" JNull in
      match py_in transaction_id (active_sessions w) with
      | Raise => (RestoreServerError, w)
      | Ok true =>
          match py_index transaction_id (active_sessions w) with
          | Some session =>
              if opt_str_eq_json (s_restore_key session) restore_key
              then (Restored (isoformat L (s_end_time session)) (s_duration session)
                             (isoformat L (s_start_time session)), w)
              else (RestoreDenied, w)
          | None => (RestoreDenied, w)
          end
      | Ok false => (RestoreDenied, w)
      end
  | Ok _ => (RestoreServerError, w)   (* [data.get] on anything but a dict *)
  end.

(** ** The session timer (main.py, session_timer_task) *)

(** The task up to the end of its last sleep: the start notice of a fresh
    timer, the sleep to the warning, the warning and the sleep to the end.
    Nothing here reads or writes the stores. *)
Definition session_timer_wait (S : Settings) (phone : string) (duration : Z)
    (is_resume : bool) (resume_seconds : option Z) (w : world) : world :=
  let w := if negb is_resume then snd (send_message phone (MsgStarted duration) w) else w in
  let warning_buffer_mins := WARNING_BUFFER_MINUTES S in
  let total_seconds := sec (duration * 60) in
  let warning_time_seconds := sec ((duration - warning_buffer_mins) * 60) in
  let sleep_until_warning :=
    match is_resume, resume_seconds with
    | true, Some r => let elapsed := total_seconds - r in warning_time_seconds - elapsed
    | _, _ => warning_time_seconds
    end in
  if (0 <? sleep_until_warning)%Z then
    let w := emit (Sleep sleep_until_warning) w in
    let w := snd (send_message phone (MsgWarning warning_buffer_mins) w) in
    let remaining_after_warning := total_seconds - warning_time_seconds in
    emit (Sleep remaining_after_warning) w
  else
    let remaining :=
      match is_resume, resume_seconds with
      | true, Some r => r
      | _, _ => total_seconds
      end in
    if (0 <? remaining)%Z then emit (Sleep remaining) w else w.

(** The end of the task, run on the state the process has by then: the
    end notice, then the removal of the session if it is still there. *)
Definition session_timer_cleanup (phone : string) (duration : Z) (transaction_id : string)
    (w : world) : world :=
  let w := snd (send_message phone (MsgEnded duration) w) in
  if bool_decide (is_Some (active_sessions w !! transaction_id))
  then save_sessions (set_active_sessions (delete transaction_id (active_sessions w)) w)
  else w.

(** The whole task when nothing else runs in between.  A cancellation (the
    process is shut down during a sleep) ends the task there, without the
    cleanup, and is not part of the model. *)
Definition session_timer_task (S : Settings) (phone : string) (duration : Z)
    (transaction_id : string) (is_resume : bool) (resume_seconds : option Z) (w : world) : world :=
  session_timer_cleanup phone duration transaction_id
    (session_timer_wait S phone duration is_resume resume_seconds w).

(** ** Start of the process (main.py, startup_event) *)

Definition restore_timer (now : datetime) (w : world) (entry : string * session) : world :=
  let '(tid, session) := entry in
  if (s_end_time session >? now)%Z
  then emit (SpawnTimer (s_phone session) (s_duration session) tid true
                        (Some (s_end_time session - now))) w
  else w.

(** [now1] and [now2] are the two readings of the clock, before the cleanup
    and before the timers are restored.  Starting the messaging client and
    connecting to the ledger, which come first, change nothing the state
    keeps. *)
Definition startup_event (now1 now2 : datetime) (w : world) : world :=
  let w := load_sessions w in
  let initial_count := size (active_sessions w) in
  let w := set_active_sessions
             (filter (fun entry => now1 < s_end_time (snd entry)) (active_sessions w)) w in
  let w := if (size (active_sessions w) <? initial_count)%nat then save_sessions w else w in
  let w := emit SpawnHourlyStats w in
  foldl (restore_timer now2) w (map_to_list (active_sessions w)).

(** ** Aggregates of the ledger (services/google_sheets.py) *)

(** [int(x)] on a float: towards zero. *)
Definition int_of_float (x : Q) : Z :=
  if Qle_bool 0 x then Qfloor x else Qceiling x.

(** One turn of the loop of [get_stats_for_today]. *)
Definition add_row_today (L : pylib) (today_str : string) (acc : Z * Q) (row : list string) : Z * Q :=
  let '(count, total_amount) := acc in
  if (List.length row <? 5)%nat then acc
  else
    let timestamp := default "" (row !! 0%nat) in
    let amount_str := default "" (row !! 4%nat) in
    if String.prefix today_str timestamp then
      match py_float L amount_str with
      | Some x => (count + 1, Qplus total_amount x)
      | None => (count + 1, total_amount)
      end
    else acc.

(** [rows[start_idx:]] where the first row is skipped when one of its cells
    is ["Timestamp"]. *)
Definition data_rows (rows : worksheet) : worksheet :=
  match rows with
  | [] => []
  | header :: _ =>
      let start_idx := if existsb (String.eqb "Timestamp") header then 1%nat else 0%nat in
      drop start_idx rows
  end.

(** [GoogleSheetService.get_stats_for_today]: the pair (count, total).
    [today_str] is the day read from the clock. *)
Definition get_stats_for_today (L : pylib) (today_str : string) (w : world) : py (Z * Z) * world :=
  let w := emit GetStats w in
  match sheet w with
  | NoClient => (Raise, w)
  | ApiError => (Ok (0, 0), w)
  | Sheet rows =>
      let '(count, total_amount) := foldl (add_row_today L today_str) (0, 0%Q) (data_rows rows) in
      (Ok (count, int_of_float total_amount), w)
  end.




(** A list of cells without the empty cells at its end. *)
Fixpoint trim_empty (cells : list string) : list string :=
  match cells with
  | [] => []
  | c :: rest =>
      match trim_empty rest with
      | [] => if String.eqb c "" then [] else [c]
      | r => c :: r
      end
  end.

(** [worksheet.col_values(col)]: the cells of the column from the first
    row down to its last cell that is not empty. *)
Definition col_values (rows : worksheet) (col : nat) : list string :=
  trim_empty (map (fun row => default "" (row !! (col - 1)%nat)) rows).

(** [GoogleSheetService.check_transaction_exists]: the ids are the cells of
    column 4, compared after trimming; an error of the API gives [False]. *)
Definition check_transaction_exists (transaction_id : string) (w : world) : py bool :=
  match sheet w with
  | NoClient => Raise
  | ApiError => Ok false
  | Sheet rows =>
      let transaction_ids := col_values rows 4 in
      Ok (existsb (fun tid => String.eqb (strip tid) (strip transaction_id)) transaction_ids)
  end.

(** [GoogleSheetService.append_data]: every failure reaches the caller. *)
Definition append_data (data : list string) (w : world) : py unit * world :=
  match sheet w with
  | Sheet rows => (Ok tt, emit (AppendRow data) (set_sheet (Sheet (rows ++ [data])%list) w))
  | _ => (Raise, w)
  end.

(** ** The reporting task (main.py, hourly_stats_task) *)

(** The first half of a turn: how long to wait.  [Raise] is a failure of
    [fromisoformat] or of the date arithmetic. *)
Definition hourly_wait (L : pylib) (now : datetime) (w : world) : py (Z * world) :=
  let last_report_str := load_server_state w in
  match last_report_str with
  | Some s =>
      if String.eqb s "" then
        Ok (sec 3600, save_server_state (Some (isoformat L now)) w)
      else
        match fromisoformat L s with
        | None => Raise
        | Some last_report_time =>
            match add_minutes last_report_time 60 with
            | Raise => Raise
            | Ok next_report_time => Ok (next_report_time - now, w)
            end
        end
  | None => Ok (sec 3600, save_server_state (Some (isoformat L now)) w)
  end.

(** One turn of the [while True] loop.  [now] and [new_now] are the clock
    at the top of the turn and after the report, [today_str] the day the
    ledger is asked about and [report_date] the day written in the text. *)
Definition hourly_stats_turn (L : pylib) (S : Settings) (now new_now : datetime)
    (today_str report_date : string) (w : world) : world :=
  match hourly_wait L now w with
  | Raise => emit (Sleep (sec 60)) w
  | Ok (wait_seconds, w1) =>
      let w2 := if (0 <? wait_seconds)%Z then emit (Sleep wait_seconds) w1 else w1 in
      match get_stats_for_today L today_str w2 with
      | (Raise, w3) => emit (Sleep (sec 60)) w3
      | (Ok (count, total), w3) =>
          let w4 := snd (send_message (ADMIN_PHONE S)
                           (MsgHourlyReport report_date count total) w3) in
          let w5 := save_server_state (Some (isoformat L new_now)) w4 in
          emit (Sleep (sec 1)) w5
      end
  end.

(** The loop, run for as many turns as there are clock readings. *)
Fixpoint hourly_stats_task (L : pylib) (S : Settings)
    (clock : list (datetime * datetime * string * string)) (w : world) : world :=
  match clock with
  | [] => w
  | (now, new_now, today_str, report_date) :: rest =>
      hourly_stats_task L S rest (hourly_stats_turn L S now new_now today_str report_date w)
  end.

(** ** Start of the module (main.py, top level) *)

(** What importing main.py does to the two stores: both start empty and
    the pending keys are read back from their file. *)
Definition import_main (w : world) : world :=
  load_pending_keys (set_pending_keys ∅ (set_active_sessions ∅ w)).

(** ** Issuing a code (main.py, /submit_entry and process_entry_task) *)

(** [whatsapp_service.send_image]: the same addressing as [send_message];
    a missing file or a failed delivery gives [False]. *)
Definition send_image (phone_number image_path : string) (caption : message) (w : world)
  : bool * world :=
  let p := clean_number phone_number in
  let ok := delivers w p caption in
  (ok, emit (SendImage p image_path caption ok) w).

(** The plan behind a selection: amount, duration and name. *)
Definition parse_plan (plan_selection : string) : Z * Z * string :=
  if String.eqb plan_selection "premium_50" then (50, 15, "Premium")
  else if String.eqb plan_selection "standard_40" then (40, 15, "Standard")
  else (0, 0, "Unknown").

(** The claims put in the token. *)
Definition claims_of (transaction_id name phone : string) (duration amount : Z)
    (plan_name secure_key : string) : json :=
  JObj [("transaction_id", JStr transaction_id); ("name", JStr name); ("phone", JStr phone);
        ("duration", JInt duration); ("amount", JInt amount); ("plan", JStr plan_name);
        ("secure_key", JStr secure_key)].

(** [rand] is the number drawn by [secrets.randbelow(10**14)], [iv] the
    randomness of Fernet, [generate_qr] the image writer with the path it
    returns, [timestamp] the formatted clock. *)
Definition process_entry_task (L : pylib) (key : bytes) (S : Settings)
    (rand : Z) (iv : bytes) (local_ip : string) (generate_qr : string -> py string)
    (timestamp : string)
    (name phone transaction_id plan_selection payment_mode : string) (w : world) : world :=
  let '(amount, duration, plan_name) := parse_plan plan_selection in
  let phone := remove_char "+" (remove_char "-" (remove_char " " phone)) in
  let secure_key := zfill 14 (str_of_Z rand) in
  let w := set_pending_keys (<[transaction_id := secure_key]> (pending_keys w)) w in
  let w := save_pending_keys w in
  let data := claims_of transaction_id name phone duration amount plan_name secure_key in
  match encrypt L key iv data with
  | Raise => w
  | Ok token =>
      let qr_data := "http://" ++ local_ip ++ ":" ++ str_of_Z 5000 ++ "/verify?token=" ++ token in
      let w := emit (GenerateQr qr_data) w in
      match generate_qr qr_data with
      | Raise => w
      | Ok qr_path =>
          let w :=
            if negb (String.eqb (SHEET_URL S) "") then
              let row_data := [timestamp; name; phone; transaction_id; str_of_Z amount;
                               str_of_Z duration; "Pending"; payment_mode; plan_name] in
              snd (append_data row_data w)
            else w in
          let caption := MsgQrCaption name payment_mode transaction_id plan_name amount duration in
          snd (send_image phone qr_path caption w)
      end
  end.

Inductive submit_response :=
| SubmitRejected (message : string)                    (* 400 *)
| SubmitStarted.

(** [timestamp_part] and [random_part] are the clock and the number drawn
    for the id of a cash payment. *)
Definition submit_entry (S : Settings) (timestamp_part : string) (random_part : Z)
    (name phone : string) (transaction_id : option string)
    (plan_selection payment_mode : string) (w : world) : py submit_response * world :=
  let start tid :=
    (Ok SubmitStarted, emit (SpawnProcessEntry name phone tid plan_selection payment_mode) w) in
  if String.eqb payment_mode "online" then
    match transaction_id with
    | Some tid =>
        if negb (truthy transaction_id)
        then (Ok (SubmitRejected "Transaction ID is required for Online payments"), w)
        else if negb (String.eqb (SHEET_URL S) "") then
          match check_transaction_exists tid w with
          | Raise => (Raise, w)
          | Ok true => (Ok (SubmitRejected "Transaction ID already exists"), w)
          | Ok false => start tid
          end
        else start tid
    | None => (Ok (SubmitRejected "Transaction ID is required for Online payments"), w)
    end
  else
    start ("CASH-" ++ timestamp_part ++ "-" ++ str_of_Z random_part).

(** ** The list of sessions (main.py, /api/sessions) *)

Record session_view := SessionView {
  v_name : string;
  v_phone : string;
  v_transaction_id : string;
  v_duration : Z;
  v_start_time : datetime;       (* shown as %H:%M:%S *)
  v_end_time : datetime;
  v_remaining_seconds : Z;       (* whole seconds *)
  v_status : string
}.

Definition session_view_of (S : Settings) (now : datetime) (session : session) : session_view :=
  let remaining := s_end_time session - now in
  let '(remaining, status) :=
    if (remaining <=? 0)%Z then (0, "Ended")
    else if (remaining <=? sec (WARNING_BUFFER_MINUTES S * 60))%Z then (remaining, "Warning")
    else (remaining, "Active") in
  SessionView (s_name session) (s_phone session) (s_transaction_id session)
              (s_duration session) (s_start_time session) (s_end_time session)
              (remaining ÷ 1000000) status.

Definition get_sessions (S : Settings) (now : datetime) (w : world) : list session_view :=
  map (fun entry => session_view_of S now (snd entry)) (map_to_list (active_sessions w)).

(** ** The handler of last resort (main.py, global_exception_handler) *)

(** The status of the answer: always 500, after an alert to the admin. *)
Definition global_exception_handler (S : Settings) (path err : string) (w : world) : Z * world :=
  (500, snd (send_message (ADMIN_PHONE S) (MsgServerError path err) w)).

(** ** A small instance of the library interface

    Used to run the definitions on concrete inputs: a cipher that prefixes
    the key, the identity for base64, a JSON printer with a reader that
    knows the documents of [sample_documents], and decimal numbers. *)

Fixpoint strip_prefix (p b : bytes) : option bytes :=
  match p, b with
  | [], _ => Some b
  | x :: p', y :: b' => if Byte.eqb x y then strip_prefix p' b' else None
  | _ :: _, [] => None
  end.

Definition quote (s : string) : string :=
  String (ascii_of_nat 34) (s ++ String (ascii_of_nat 34) EmptyString).

Fixpoint sample_dumps (j : json) : string :=
  match j with
  | JNull => "null"
  | JBool b => if b then "true" else "false"
  | JInt n => str_of_Z n
  | JFloat literal => literal
  | JStr s => quote s
  | JArr items => "[" ++ String.concat "," (map sample_dumps items) ++ "]"
  | JObj members =>
      "{" ++ String.concat ","
               (map (fun kv => match kv with (k, v) => quote k ++ ":" ++ sample_dumps v end) members)
          ++ "}"
  end.

Definition digit_of (c : ascii) : option Z :=
  let n := nat_of_ascii c in
  if ((48 <=? n)%nat && (n <=? 57)%nat) then Some (Z.of_nat (n - 48)) else None.

Fixpoint parse_digits (acc : Z) (s : string) : option Z :=
  match s with
  | EmptyString => Some acc
  | String c rest =>
      match digit_of c with
      | Some d => parse_digits (acc * 10 + d) rest
      | None => None
      end
  end.

Definition sample_int (s : string) : option Z :=
  match strip s with
  | EmptyString => None
  | String "-" EmptyString | String "+" EmptyString => None
  | String "-" rest => Z.opp <$> parse_digits 0 rest
  | String "+" rest => parse_digits 0 rest
  | t => parse_digits 0 t
  end.

(** The claims of a token for transaction T1, and a few other documents. *)
Definition claims_T1 : json :=
  JObj [("transaction_id", JStr "T1"); ("name", JStr "Asha"); ("phone", JStr "9876543210");
        ("duration", JInt 15); ("amount", JInt 50); ("plan", JStr "Premium");
        ("secure_key", JStr "00000000000042")].

Definition sample_documents : list json :=
  [claims_T1; JObj []; JArr []; JStr "T1"; JNull;
   JObj [("transaction_id", JArr []); ("secure_key", JStr "00000000000042")];
   JObj [("transaction_id", JStr "T1"); ("name", JStr "Asha");
         ("secure_key", JStr "00000000000042")]].

Definition sample_loads (s : string) : option json :=
  List.find (fun c => String.eqb (sample_dumps c) s) sample_documents.

Definition sample_lib : pylib := {|
  fernet_encrypt := fun key _ data => (key ++ data)%list;
  fernet_decrypt := fun key token => strip_prefix key token;
  urlsafe_b64encode := fun b => b;
  urlsafe_b64decode := fun b => Some b;
  json_dumps := sample_dumps;
  json_loads := sample_loads;
  str_encode := list_byte_of_string;
  bytes_decode := fun b => Some (string_of_list_byte b);
  py_int := sample_int;
  py_float := fun s => inject_Z <$> sample_int s;
  isoformat := str_of_Z;
  fromisoformat := fun s => parse_digits 0 s
|}.

Definition sample_key : bytes := list_byte_of_string "k3y".

Definition sample_token (c : json) : string :=
  match encrypt sample_lib sample_key [] c with
  | Ok t => t
  | Raise => ""
  end.

Definition no_delivery (_ : string) (_ : message) : bool := false.

Definition empty_world : world :=
  World ∅ ∅ None None None ApiError no_delivery [].

Definition session_T1 : session :=
  Session "Asha" "9876543210" "T1" 15 (sec 1000) (sec 1900) (Some "rk").

(** The row [process_entry_task] appends for T1, under the header. *)
Definition sheet_T1 : worksheet :=
  [["Timestamp"; "Name"; "Phone"; "Transaction ID"; "Amount"; "Duration"; "Status";
    "Payment Mode"; "Plan"];
   ["2025-01-01 10:00:00"; "Asha"; "9876543210"; "T1"; "50"; "15"; "Pending"; "online"; "Premium"]].

Definition world_T1 : world :=
  World ∅ {[ "T1" := "00000000000042" ]} None None None (Sheet sheet_T1) no_delivery [].

(** The life of T1: scanned and admitted, session started, session ended. *)
Definition world_T1_admitted : world :=
  snd (verify_entry sample_lib sample_key (sec 1000) (sample_token claims_T1) world_T1).
Definition world_T1_started : world :=
  snd (start_timer sample_lib (sec 1000) "rk" "9876543210" "15" (Some "Asha") (Some "T1")
         world_T1_admitted).
Definition world_T1_ended : world :=
  session_timer_cleanup "9876543210" 15 "T1" world_T1_started.


(** ** Reading a trace *)

(** What was appended to the trace between [w] and [w']. *)
Definition events_since (w w' : world) : list event :=
  drop (List.length (trace w)) (trace w').

(** The messages of a trace with the time each one is sent at, when the
    trace starts at time [t]: [asyncio.sleep(d)] lets [d] pass, and nothing
    when [d] is not positive; the sends themselves take no time. *)
Fixpoint notices (t : Z) (evs : list event) : list (message * Z) :=
  match evs with
  | [] => []
  | Sleep d :: rest => notices (t + Z.max 0 d) rest
  | SendMessage _ msg _ :: rest => (msg, t) :: notices t rest
  | _ :: rest => notices t rest
  end.

(** The delays of the sleeps of a trace. *)
Fixpoint sleeps (evs : list event) : list Z :=
  match evs with
  | [] => []
  | Sleep d :: rest => d :: sleeps rest
  | _ :: rest => sleeps rest
  end.

Definition sample_settings : Settings :=
  {| SHEET_URL := "https://docs.google.com/spreadsheets/d/x";
     ADMIN_PHONE := "9000000000";
     WARNING_BUFFER_MINUTES := 5;
     ADMIN_USERNAME := "admin";
     ADMIN_PASSWORD := "secret" |}.

(** What [restore_timer] appends for one entry. *)
Definition restore_events (now : datetime) (entry : string * session) : list event :=
  let '(tid, session) := entry in
  if (s_end_time session >? now)%Z
  then [SpawnTimer (s_phone session) (s_duration session) tid true
                   (Some (s_end_time session - now))]
  else [].

(** The timers started for [tid], and the messages, among some events. *)
Definition is_timer_for (tid : string) (e : event) : bool :=
  match e with
  | SpawnTimer _ _ t _ _ => String.eqb t tid
  | _ => false
  end.

Definition is_send (e : event) : bool :=
  match e with
  | SendMessage _ _ _ | SendImage _ _ _ _ => true
  | _ => false
  end.

Definition session_T2 : session :=
  Session "Ravi" "9123456780" "T2" 15 (sec 4100) (sec 5000) (Some "rk2").

(** A process about to start, with an ended and a running session on disk. *)
Definition sessions_on_disk : gmap string session :=
  {[ "T1" := session_T1; "T2" := session_T2 ]}.

Definition world_restart : world :=
  World ∅ ∅ (Some sessions_on_disk) None None ApiError no_delivery [].

(** A string or [None] as a decoded value. *)
Definition json_of_opt_str (a : option string) : json :=
  match a with
  | Some s => JStr s
  | None => JNull
  end.

(** Values that can be looked up in a dict. *)
Definition hashable (v : json) : bool :=
  match v with
  | JArr _ | JObj _ => false
  | _ => true
  end.

(** A process whose last report was at second 1000, with the sheet of T1. *)
Definition world_reported : world :=
  World ∅ ∅ None None (Some (Some "1000000000")) (Sheet sheet_T1) no_delivery [].

(** ** Notions used by the properties *)

(** The contracts of the libraries behind the token codec: Fernet decrypts
    what it encrypted under the same key, base64 and UTF-8 decode what they
    encoded, and UTF-8 encodes back what it decoded. *)
Definition codec_contracts (L : pylib) : Prop :=
  (forall k r m, fernet_decrypt L k (fernet_encrypt L k r m) = Some m) /\
  (forall b, urlsafe_b64decode L (urlsafe_b64encode L b) = Some b) /\
  (forall s, bytes_decode L (str_encode L s) = Some s) /\
  (forall b s, bytes_decode L b = Some s -> str_encode L s = b).

(** The two effects of an admission: the write to the ledger and the
    message. *)
Definition is_gate_effect (e : event) : bool :=
  match e with
  | SendMessage _ _ _ | UpdateEntryStatus _ _ => true
  | _ => false
  end.

(** Each file mirrors its store; a missing file stands for an empty one. *)
Definition synced (w : world) : Prop :=
  (pending_keys_file w = Some (pending_keys w) \/
   (pending_keys_file w = None /\ pending_keys w = ∅)) /\
  (sessions_file w = Some (active_sessions w) \/
   (sessions_file w = None /\ active_sessions w = ∅)).

(** The key [process_entry_task] makes of the number it draws. *)
Definition secure_key_of (rand : Z) : string := zfill 14 (str_of_Z rand).

(** The ten decimal digits. *)
Definition is_digit (c : ascii) : bool :=
  let n := nat_of_ascii c in ((48 <=? n)%nat && (n <=? 57)%nat).

(** A QR writer that always returns the same path. *)
Definition sample_qr (_ : string) : py string := Ok "generated_qrs/qr.png".

(** T1 issued on an empty process with the sheet of T1's header only. *)
Definition world_T1_issued : world :=
  process_entry_task sample_lib sample_key sample_settings 42 [] "10.0.0.2" sample_qr
    "2025-01-01 10:00:00" "Asha" "+98765 43210" "T1" "premium_50" "online"
    (set_sheet (Sheet (take 1 sheet_T1)) empty_world).

(** The session of T1 started on the process that issued its code. *)
Definition world_T1_running : world :=
  snd (start_timer sample_lib (sec 1000) "rk" "9876543210" "15" (Some "Asha") (Some "T1")
         world_T1_issued).

(** The texts the gate can show with status "error". *)
Definition gate_messages : list string :=
  ["Invalid or Tampered QR Code";
   "Entry ALREADY processed/used.";
   "Invalid QR Code: Transaction not found or expired.";
   "Security Check Failed: Invalid Key.";
   "Verification Processing Failed"].

(** A sheet laid out with the status in column 5, and T1 marked as in. *)
Definition world_status_in_E : world :=
  World ∅ ∅ None None None
        (Sheet [["2025-01-01 10:00:00"; "Asha"; "9876543210"; "T1"; " In "; "50"]])
        no_delivery [].
(** * Properties *)

Local Open Scope list_scope.

(** ** The verification gate *)

(** C1.  When the token decrypts to claims whose transaction id has an
    active session, [verify_entry] answers [check_restore] with the claims
    of the token and leaves the whole state as it was: no ledger call, no
    message, no new session.  The answer is the same whatever the
    pending-key store holds, so the active-session test comes first. *)
Theorem verify_active_session_offers_restore
    (L : pylib) (key : bytes) (now : datetime) (token : string) (w : world)
    (data : list (string * json)) (tid : string) (s : session) :
  decrypt L key token = Ok (JObj data) ->
  dict_get data "transaction_id" JNull = JStr tid ->
  active_sessions w !! tid = Some s ->
  let answer := ScanCheckRestore (JStr tid) (dict_get data "name" JNull)
                  (dict_get data "phone" JNull) (dict_get data "duration" (JInt 15))
                  (dict_get data "plan" (JStr "Unknown")) in
  verify_entry L key now token w = (answer, w) /\
  forall pk, verify_entry L key now token (set_pending_keys pk w)
             = (answer, set_pending_keys pk w).
Proof.
  intros Hdec Htid Hact answer.
  assert (Hgen : forall w', active_sessions w' !! tid = Some s ->
                            verify_entry L key now token w' = (answer, w')).
  { intros w' Hw'. unfold verify_entry. rewrite Hdec, Htid. simpl.
    rewrite Hw'. rewrite bool_decide_eq_true_2 by eauto. reflexivity. }
  split; [apply Hgen; exact Hact | intros pk; apply Hgen; exact Hact].
Qed.

Lemma verify_active_session_offers_restore_witness :
  verify_entry sample_lib sample_key 0 (sample_token claims_T1)
    (set_active_sessions {[ "T1" := session_T1 ]} empty_world)
  = (ScanCheckRestore (JStr "T1") (JStr "Asha") (JStr "9876543210") (JInt 15) (JStr "Premium"),
     set_active_sessions {[ "T1" := session_T1 ]} empty_world).
Proof.
  refine (proj1 (verify_active_session_offers_restore sample_lib sample_key 0
            (sample_token claims_T1) (set_active_sessions {[ "T1" := session_T1 ]} empty_world)
            (match claims_T1 with JObj d => d | _ => [] end) "T1" session_T1 _ _ _)).
  - vm_compute. reflexivity.
  - reflexivity.
  - vm_compute. reflexivity.
Defined.

(** C2.  The admission writes ["In"] to column 7 of the row of T1, and the
    status is read back from column 5, which holds the amount: once the
    pending key is consumed and the session has ended, scanning the token
    of T1 again is answered "not found or expired", not "already used". *)
Theorem rescan_after_session_end_reports_not_found :
  fst (verify_entry sample_lib sample_key (sec 1000) (sample_token claims_T1) world_T1)
    = ScanSuccess (JStr "Asha") (JStr "T1") (JInt 15) (JStr "Premium") (JStr "9876543210") (sec 1000)
  /\ sheet world_T1_ended
     = Sheet [["Timestamp"; "Name"; "Phone"; "Transaction ID"; "Amount"; "Duration"; "Status";
               "Payment Mode"; "Plan"];
              ["2025-01-01 10:00:00"; "Asha"; "9876543210"; "T1"; "50"; "15"; "In"; "online";
               "Premium"]]
  /\ pending_keys world_T1_ended !! "T1" = None
  /\ active_sessions world_T1_ended !! "T1" = None
  /\ fst (get_entry_status (JStr "T1") world_T1_ended) = Ok (Some "50")
  /\ fst (verify_entry sample_lib sample_key (sec 5000) (sample_token claims_T1) world_T1_ended)
     = ScanError "Invalid QR Code: Transaction not found or expired.".
Proof. repeat split; vm_compute; reflexivity. Qed.

(** *** What the gate leaves alone *)

Lemma same_stores_refl w : same_stores w w.
Proof. repeat split. Qed.

Lemma get_entry_status_same_stores t w : same_stores w (snd (get_entry_status t w)).
Proof.
  unfold get_entry_status. simpl.
  destruct (sheet w); [repeat split..|].
  destruct t; try solve [repeat split].
  destruct (find s rows) as [[? ?]|]; repeat split.
Qed.

Lemma update_entry_status_same_stores t st w : same_stores w (snd (update_entry_status t st w)).
Proof.
  unfold update_entry_status. simpl.
  destruct (sheet w); [repeat split..|].
  destruct t; try solve [repeat split].
  destruct (find s rows) as [[? ?]|]; repeat split.
Qed.

Lemma send_message_same_stores p m w : same_stores w (snd (send_message p m w)).
Proof. repeat split. Qed.

Create HintDb stores.
#[local] Hint Resolve same_stores_refl get_entry_status_same_stores
  update_entry_status_same_stores send_message_same_stores : stores.

(** [verify_entry] touches neither store nor their files, whatever it
    answers. *)
Lemma verify_entry_keeps_stores L key now token w :
  same_stores w (snd (verify_entry L key now token w)).
Proof.
  unfold verify_entry.
  destruct (decrypt L key token) as [[]|]; auto with stores.
  destruct (py_in _ (active_sessions w)) as [[]|]; auto with stores.
  destruct (py_index _ (pending_keys w)).
  - destruct (negb _); auto with stores.
    pose proof (update_entry_status_same_stores
                  (dict_get members "transaction_id" JNull) "In" w) as Hu.
    destruct (update_entry_status _ "In" w) as [[b|] w1]; simpl in Hu; auto.
    destruct (dict_get members "phone" JNull); simpl; auto.
  - pose proof (get_entry_status_same_stores (dict_get members "transaction_id" JNull) w) as Hg.
    destruct (get_entry_status _ w) as [[st|] w1]; simpl in Hg; auto.
    destruct (status_is_in st); auto.
Qed.

Lemma verify_entry_success_has_pending L key now token w n t d p ph tm :
  fst (verify_entry L key now token w) = ScanSuccess n t d p ph tm ->
  exists tid k, t = JStr tid /\ pending_keys w !! tid = Some k.
Proof.
  unfold verify_entry.
  destruct (decrypt L key token) as [[]|]; try discriminate.
  destruct (py_in _ (active_sessions w)) as [[]|]; try discriminate.
  destruct (py_index _ (pending_keys w)) as [k|] eqn:Hk.
  - destruct (negb _); try discriminate.
    destruct (update_entry_status _ "In" w) as [[b|] w1]; try discriminate.
    destruct (send_message_json _ _ w1) as [[? ?]|]; try discriminate.
    simpl. intros [= _ <- _ _ _ _].
    destruct (dict_get members "transaction_id" JNull); try discriminate. eauto.
  - destruct (get_entry_status _ w) as [[st|] w1]; try discriminate.
    destruct (status_is_in st); discriminate.
Qed.

(** C3.  A successful [verify_entry] leaves the pending key of the
    transaction in the store, and a call of [start_timer] that is answered
    "Timer started" leaves no entry for its transaction id; when there was
    one, pending_keys.json holds the map without it. *)
Theorem pending_key_kept_by_verify_consumed_by_start :
  (forall L key now token w n t d p ph tm,
      fst (verify_entry L key now token w) = ScanSuccess n t d p ph tm ->
      exists tid k, t = JStr tid /\
        pending_keys (snd (verify_entry L key now token w)) !! tid = Some k) /\
  (forall L now fresh_key phone duration name tid w e d r w',
      start_timer L now fresh_key phone duration name (Some tid) w = (Ok (TimerStarted e d r), w') ->
      pending_keys w' !! tid = None /\
      pending_keys w' = delete tid (pending_keys w) /\
      (is_Some (pending_keys w !! tid) -> pending_keys_file w' = Some (pending_keys w'))).
Proof.
  split.
  - intros L key now token w n t d p ph tm H.
    destruct (verify_entry_success_has_pending _ _ _ _ _ _ _ _ _ _ _ H) as (tid & k & -> & Hk).
    exists tid, k. split; [reflexivity|].
    destruct (verify_entry_keeps_stores L key now token w) as (-> & _). exact Hk.
  - intros L now fresh_key phone duration name tid w e d r w' H.
    unfold start_timer in H.
    destruct name as [name|]; [|discriminate].
    destruct (negb (truthy (Some name)) || negb (truthy (Some tid))); [discriminate|].
    destruct (add_minutes now _) as [end_time|]; [|discriminate].
    simpl in H.
    destruct (bool_decide (is_Some (pending_keys w !! tid))) eqn:Hin;
      injection H as _ _ _ <-; simpl.
    + split; [apply lookup_delete_eq|]. split; [reflexivity|]. intros _. reflexivity.
    + apply bool_decide_eq_false_1 in Hin.
      assert (Hnone : pending_keys w !! tid = None).
      { destruct (pending_keys w !! tid) eqn:E; [exfalso; apply Hin; eauto | reflexivity]. }
      split; [exact Hnone|]. split; [symmetry; apply delete_id; exact Hnone|].
      intros Hs. contradiction.
Qed.

Lemma pending_key_kept_by_verify_consumed_by_start_witness :
  (exists tid k, JStr "T1" = JStr tid /\ pending_keys world_T1_admitted !! tid = Some k) /\
  (pending_keys world_T1_started !! "T1" = None /\
   pending_keys world_T1_started = delete "T1" (pending_keys world_T1_admitted) /\
   (is_Some (pending_keys world_T1_admitted !! "T1") ->
    pending_keys_file world_T1_started = Some (pending_keys world_T1_started))).
Proof.
  destruct pending_key_kept_by_verify_consumed_by_start as [Hv Hs]. split.
  - apply (Hv sample_lib sample_key (sec 1000) (sample_token claims_T1) world_T1
              (JStr "Asha") (JStr "T1") (JInt 15) (JStr "Premium") (JStr "9876543210") (sec 1000)).
    vm_compute. reflexivity.
  - apply (Hs sample_lib (sec 1000) "rk" "9876543210" "15" (Some "Asha") "T1"
              world_T1_admitted "1900000000" 15 "rk" world_T1_started).
    vm_compute. reflexivity.
Defined.

(** A call without a name is turned away with status 400 and the pending
    key of its transaction id stays where it was. *)
Lemma start_timer_without_name_keeps_pending_key :
  start_timer sample_lib (sec 1000) "rk" "9876543210" "15" None (Some "T1") world_T1
    = (Ok StartRejected, world_T1) /\
  pending_keys world_T1 !! "T1" = Some "00000000000042" /\
  ~ (forall L now fresh_key phone duration name tid w,
        pending_keys (snd (start_timer L now fresh_key phone duration name (Some tid) w)) !! tid
        = None).
Proof.
  split; [reflexivity|]. split; [vm_compute; reflexivity|].
  intros H.
  specialize (H sample_lib (sec 1000) "rk" "9876543210" "15" None "T1" world_T1).
  vm_compute in H. discriminate H.
Qed.

(** ** The session timer *)

Lemma events_since_app w w' evs : trace w' = (trace w ++ evs)%list -> events_since w w' = evs.
Proof. intros H. unfold events_since. rewrite H. apply drop_app_length. Qed.

Lemma events_since_emit w e : events_since w (emit e w) = [e].
Proof. apply events_since_app. reflexivity. Qed.

(** The events of the end of the task. *)
Lemma session_timer_cleanup_trace phone duration tid w :
  trace (session_timer_cleanup phone duration tid w)
  = (trace w
     ++ SendMessage (clean_number phone) (MsgEnded duration)
          (delivers w (clean_number phone) (MsgEnded duration))
        :: (if bool_decide (is_Some (active_sessions w !! tid)) then [WriteSessions] else []))%list.
Proof.
  unfold session_timer_cleanup. simpl.
  destruct (bool_decide _); simpl; [rewrite <- app_assoc|]; reflexivity.
Qed.

(** A fresh timer: start notice, sleep to the warning, warning, sleep of
    the buffer. *)
Lemma session_timer_wait_fresh S phone D rs w :
  WARNING_BUFFER_MINUTES S < D ->
  let W := WARNING_BUFFER_MINUTES S in
  let p := clean_number phone in
  trace (session_timer_wait S phone D false rs w)
  = (trace w ++ [SendMessage p (MsgStarted D) (delivers w p (MsgStarted D));
                 Sleep (sec ((D - W) * 60));
                 SendMessage p (MsgWarning W) (delivers w p (MsgWarning W));
                 Sleep (sec (D * 60) - sec ((D - W) * 60))])%list.
Proof.
  intros HW W p. unfold session_timer_wait. fold W. simpl.
  assert (H : (0 <? sec ((D - W) * 60))%Z = true) by (apply Z.ltb_lt; unfold sec; lia).
  rewrite H. simpl. rewrite <- !app_assoc. reflexivity.
Qed.

(** A timer resumed before the warning is due. *)
Lemma session_timer_wait_resume_early S phone D r w :
  sec (D * 60) - r < sec ((D - WARNING_BUFFER_MINUTES S) * 60) ->
  let W := WARNING_BUFFER_MINUTES S in
  let p := clean_number phone in
  trace (session_timer_wait S phone D true (Some r) w)
  = (trace w ++ [Sleep (sec ((D - W) * 60) - (sec (D * 60) - r));
                 SendMessage p (MsgWarning W) (delivers w p (MsgWarning W));
                 Sleep (sec (D * 60) - sec ((D - W) * 60))])%list.
Proof.
  intros HE W p. unfold session_timer_wait. fold W. simpl.
  assert (H : (0 <? sec ((D - W) * 60) - (sec (D * 60) - r))%Z = true)
    by (apply Z.ltb_lt; subst W; lia).
  rewrite H. simpl. rewrite <- !app_assoc. reflexivity.
Qed.

(** A timer resumed once the warning is due or past. *)
Lemma session_timer_wait_resume_late S phone D r w :
  sec ((D - WARNING_BUFFER_MINUTES S) * 60) <= sec (D * 60) - r ->
  trace (session_timer_wait S phone D true (Some r) w)
  = (trace w ++ (if (0 <? r)%Z then [Sleep r] else []))%list.
Proof.
  intros HE. unfold session_timer_wait. simpl.
  assert (H : (0 <? sec ((D - WARNING_BUFFER_MINUTES S) * 60) - (sec (D * 60) - r))%Z = false)
    by (apply Z.ltb_ge; lia).
  rewrite H. destruct (0 <? r)%Z; simpl; [reflexivity | symmetry; apply app_nil_r].
Qed.

(** C4.  With a warning buffer [W] and a duration [D], [0 <= W < D], the
    notices of a timer come at these points of the session's time: a fresh
    timer sends the start notice at 0, the warning at [(D-W)*60] seconds
    and the end notice at [D*60] seconds; a timer resumed with [r] seconds
    left, that is at [E = D*60 - r], sends the warning at [(D-W)*60] and
    the end notice at [D*60] when [E] is before the warning, and otherwise
    sleeps [r] once and sends the end notice alone, at [D*60]. *)
Theorem session_timer_schedule (S : Settings) (phone : string) (D : Z) (tid : string) (w : world) :
  let W := WARNING_BUFFER_MINUTES S in
  0 <= W < D ->
  (forall rs,
      notices 0 (events_since w (session_timer_task S phone D tid false rs w))
      = [(MsgStarted D, 0); (MsgWarning W, sec ((D - W) * 60)); (MsgEnded D, sec (D * 60))]) /\
  (forall r,
      let E := sec (D * 60) - r in
      (E < sec ((D - W) * 60) ->
       notices E (events_since w (session_timer_task S phone D tid true (Some r) w))
       = [(MsgWarning W, sec ((D - W) * 60)); (MsgEnded D, sec (D * 60))]) /\
      (sec ((D - W) * 60) <= E -> 0 < r ->
       sleeps (events_since w (session_timer_task S phone D tid true (Some r) w)) = [r] /\
       notices E (events_since w (session_timer_task S phone D tid true (Some r) w))
       = [(MsgEnded D, sec (D * 60))])).
Proof.
  intros W HW.
  assert (Hflag : forall b : bool, notices (sec (D * 60)) (if b then [WriteSessions] else []) = []
                                   /\ sleeps (if b then [WriteSessions] else []) = [])
    by (intros []; split; reflexivity).
  split; [intros rs | intros r E; split; [intros HE | intros HE Hr]];
    unfold session_timer_task.
  - erewrite events_since_app;
      [| rewrite session_timer_cleanup_trace, session_timer_wait_fresh by lia;
         rewrite <- app_assoc; reflexivity].
    simpl. fold W. repeat f_equal; try (unfold sec; lia).
    match goal with |- notices ?t ?l = [] => replace t with (sec (D * 60)) by (unfold sec; lia) end.
    apply Hflag.
  - erewrite events_since_app;
      [| rewrite session_timer_cleanup_trace, session_timer_wait_resume_early by exact HE;
         rewrite <- app_assoc; reflexivity].
    simpl. fold W. subst E. repeat f_equal; try (unfold sec in *; lia).
    match goal with |- notices ?t ?l = [] =>
      replace t with (sec (D * 60)) by (unfold sec in *; lia) end.
    apply Hflag.
  - assert (Hr' : (0 <? r)%Z = true) by (apply Z.ltb_lt; exact Hr).
    erewrite events_since_app;
      [| rewrite session_timer_cleanup_trace, session_timer_wait_resume_late by exact HE;
         rewrite Hr', <- app_assoc; reflexivity].
    simpl. split.
    + f_equal. apply Hflag.
    + subst E. repeat f_equal; try lia.
      match goal with |- notices ?t ?l = [] => replace t with (sec (D * 60)) by lia end.
      apply Hflag.
Qed.

Lemma session_timer_schedule_witness :
  notices 0 (events_since empty_world
               (session_timer_task sample_settings "9876543210" 15 "T1" false None empty_world))
  = [(MsgStarted 15, 0); (MsgWarning 5, sec 600); (MsgEnded 15, sec 900)] /\
  notices (sec 300) (events_since empty_world
               (session_timer_task sample_settings "9876543210" 15 "T1" true (Some (sec 600))
                  empty_world))
  = [(MsgWarning 5, sec 600); (MsgEnded 15, sec 900)] /\
  sleeps (events_since empty_world
               (session_timer_task sample_settings "9876543210" 15 "T1" true (Some (sec 120))
                  empty_world))
  = [sec 120].
Proof.
  destruct (session_timer_schedule sample_settings "9876543210" 15 "T1" empty_world)
    as [Hfresh Hresume]; [simpl; lia|].
  split; [exact (Hfresh None)|]. split.
  - destruct (Hresume (sec 600)) as [Hearly _]. apply Hearly. vm_compute. reflexivity.
  - destruct (Hresume (sec 120)) as [_ Hlate].
    apply Hlate; [vm_compute; discriminate | vm_compute; reflexivity].
Defined.

(** ** Start of the process *)

Lemma foldl_restore_timer now l w :
  foldl (restore_timer now) w l
  = World (active_sessions w) (pending_keys w) (sessions_file w) (pending_keys_file w)
          (state_file w) (sheet w) (delivers w)
          (trace w ++ flat_map (restore_events now) l).
Proof.
  revert w. induction l as [|[tid s] l IH]; intros w; simpl.
  - rewrite app_nil_r. destruct w; reflexivity.
  - rewrite IH. unfold restore_timer, restore_events.
    destruct (s_end_time s >? now)%Z; simpl; [rewrite <- app_assoc|]; reflexivity.
Qed.

Lemma restore_events_no_send now l :
  List.filter is_send (flat_map (restore_events now) l) = [].
Proof.
  induction l as [|[tid s] l IH]; simpl; [reflexivity|].
  rewrite List.filter_app, IH, app_nil_r.
  destruct (s_end_time s >? now)%Z; reflexivity.
Qed.

Lemma restore_events_other now tid l :
  tid ∉ l.*1 -> List.filter (is_timer_for tid) (flat_map (restore_events now) l) = [].
Proof.
  induction l as [|[t s] l IH]; simpl; intros Hn; [reflexivity|].
  apply not_elem_of_cons in Hn as [Hne Hn].
  rewrite List.filter_app, (IH Hn), app_nil_r.
  destruct (s_end_time s >? now)%Z; simpl; [|reflexivity].
  destruct (String.eqb_spec t tid); [congruence | reflexivity].
Qed.

Lemma restore_events_one now tid s l :
  NoDup l.*1 -> (tid, s) ∈ l -> now < s_end_time s ->
  List.filter (is_timer_for tid) (flat_map (restore_events now) l)
  = [SpawnTimer (s_phone s) (s_duration s) tid true (Some (s_end_time s - now))].
Proof.
  induction l as [|[t s'] l IH]; simpl; intros Hnd Hin Hlt.
  - apply elem_of_nil in Hin. contradiction.
  - apply NoDup_cons in Hnd as [Hnotin Hnd].
    rewrite List.filter_app.
    apply elem_of_cons in Hin as [[= <- <-]|Hin].
    + rewrite (restore_events_other _ _ _ Hnotin), app_nil_r.
      assert (H : (s_end_time s >? now)%Z = true) by (apply Z.gtb_lt; exact Hlt).
      rewrite H. simpl. rewrite String.eqb_refl. reflexivity.
    + rewrite (IH Hnd Hin Hlt).
      assert (Hne : t <> tid).
      { intros ->. apply Hnotin. apply (list_elem_of_fmap_2 fst _ _ Hin). }
      destruct (s_end_time s' >? now)%Z; simpl; [|reflexivity].
      destruct (String.eqb_spec t tid); [contradiction | reflexivity].
Qed.

(** The state after [startup_event] on a fresh process: the sessions kept,
    the file rewritten when something was dropped, and the events. *)
Lemma startup_event_shape now1 now2 w data :
  sessions_file w = Some data ->
  active_sessions w = ∅ ->
  let kept := filter (fun entry : string * session => now1 < s_end_time (snd entry)) data in
  exists pre fl,
    startup_event now1 now2 w
    = World kept (pending_keys w) fl (pending_keys_file w) (state_file w)
            (sheet w) (delivers w)
            ((trace w ++ pre ++ [SpawnHourlyStats])
               ++ flat_map (restore_events now2) (map_to_list kept)) /\
    (pre = [] \/ pre = [WriteSessions]) /\
    ((size kept < size data)%nat -> fl = Some kept) /\
    (~ (size kept < size data)%nat -> fl = Some data).
Proof.
  intros Hfile Hempty kept.
  assert (Hload : load_sessions w = set_active_sessions data w).
  { unfold load_sessions. rewrite Hfile, Hempty. f_equal. apply (right_id_L ∅ (∪)). }
  unfold startup_event. rewrite Hload. simpl. fold kept.
  destruct (size kept <? size data)%nat eqn:Hsz; simpl; rewrite foldl_restore_timer; simpl.
  - exists [WriteSessions], (Some kept). rewrite <- !app_assoc. simpl.
    apply Nat.ltb_lt in Hsz. repeat split; auto. intros Hn. contradiction.
  - exists [], (sessions_file w). apply Nat.ltb_ge in Hsz.
    split; [reflexivity|]. split; [auto|]. split; [intros Hlt; lia | intros _; exact Hfile].
Qed.

(** The events of [startup_event] that a test [f] keeps, when [f] rejects
    the file write and the start of the reporting task. *)
Lemma startup_event_events now1 now2 w data (f : event -> bool) :
  sessions_file w = Some data ->
  active_sessions w = ∅ ->
  f WriteSessions = false -> f SpawnHourlyStats = false ->
  List.filter f (events_since w (startup_event now1 now2 w))
  = List.filter f (flat_map (restore_events now2)
                     (map_to_list (filter (fun entry : string * session =>
                                             now1 < s_end_time (snd entry)) data))).
Proof.
  intros Hfile Hempty H1 H2.
  destruct (startup_event_shape now1 now2 w data Hfile Hempty) as (pre & fl & -> & Hpre & _).
  erewrite events_since_app; [|simpl; rewrite <- app_assoc; reflexivity].
  rewrite List.filter_app.
  replace (List.filter f (pre ++ [SpawnHourlyStats])) with (@nil event); [reflexivity|].
  destruct Hpre as [-> | ->]; simpl; rewrite ?H1, H2; reflexivity.
Qed.

(** C5.  At the start of a process whose sessions.json holds [data]: a
    session that ended at or before the first reading of the clock is gone
    from the store and the file is rewritten without it; no message is
    sent; a session that ends after both readings stays and gets exactly
    one resumed timer, with [end_time - now2] left. *)
Theorem startup_recovers_sessions (now1 now2 : datetime) (w : world)
    (data : gmap string session) :
  sessions_file w = Some data ->
  active_sessions w = ∅ ->
  let w' := startup_event now1 now2 w in
  (forall tid s, data !! tid = Some s -> s_end_time s <= now1 ->
      active_sessions w' !! tid = None /\
      sessions_file w' = Some (active_sessions w') /\
      List.filter (is_timer_for tid) (events_since w w') = []) /\
  List.filter is_send (events_since w w') = [] /\
  (forall tid s, data !! tid = Some s -> now1 < s_end_time s -> now2 < s_end_time s ->
      active_sessions w' !! tid = Some s /\
      List.filter (is_timer_for tid) (events_since w w')
      = [SpawnTimer (s_phone s) (s_duration s) tid true (Some (s_end_time s - now2))]).
Proof.
  intros Hfile Hempty w'.
  set (kept := filter (fun entry : string * session => now1 < s_end_time (snd entry)) data).
  pose proof (fun f => startup_event_events now1 now2 w data f Hfile Hempty) as Hev.
  fold w' kept in Hev.
  destruct (startup_event_shape now1 now2 w data Hfile Hempty) as (pre & fl & Hw' & _ & Hfl & _).
  fold w' kept in Hw', Hfl.
  assert (Hact : active_sessions w' = kept) by (rewrite Hw'; reflexivity).
  assert (Hsf : sessions_file w' = fl) by (rewrite Hw'; reflexivity).
  split; [|split].
  - intros tid s Hs Hend. rewrite Hact, Hsf.
    assert (Hnone : kept !! tid = None).
    { apply map_lookup_filter_None. right. intros s' Hs'. simpl.
      rewrite Hs in Hs'. injection Hs' as <-. lia. }
    split; [exact Hnone|]. split.
    + apply Hfl. apply map_subset_size. split; [apply map_filter_subseteq|].
      intros Hsub. rewrite map_subseteq_spec in Hsub.
      specialize (Hsub tid s Hs). fold kept in Hsub. rewrite Hnone in Hsub. discriminate.
    + rewrite Hev by reflexivity.
      apply restore_events_other. intros Hin.
      apply list_elem_of_fmap_1 in Hin as ([t s'] & -> & Hin).
      apply elem_of_map_to_list in Hin. simpl in Hnone. rewrite Hnone in Hin. discriminate.
  - rewrite Hev by reflexivity. apply restore_events_no_send.
  - intros tid s Hs H1 H2. rewrite Hact.
    assert (Hkept : kept !! tid = Some s).
    { apply map_lookup_filter_Some. split; [exact Hs | exact H1]. }
    split; [exact Hkept|].
    rewrite Hev by reflexivity.
    apply restore_events_one; [apply NoDup_fst_map_to_list | | exact H2].
    apply elem_of_map_to_list. exact Hkept.
Qed.

Lemma startup_recovers_sessions_witness :
  let w' := startup_event (sec 4500) (sec 4500) world_restart in
  (active_sessions w' !! "T1" = None /\
   sessions_file w' = Some (active_sessions w') /\
   List.filter (is_timer_for "T1") (events_since world_restart w') = []) /\
  (active_sessions w' !! "T2" = Some session_T2 /\
   List.filter (is_timer_for "T2") (events_since world_restart w')
   = [SpawnTimer "9123456780" 15 "T2" true (Some (sec 5000 - sec 4500))]).
Proof.
  destruct (startup_recovers_sessions (sec 4500) (sec 4500) world_restart sessions_on_disk)
    as (Hpast & _ & Hfuture); [reflexivity | reflexivity |].
  split.
  - apply (Hpast "T1" session_T1); [vm_compute; reflexivity | vm_compute; discriminate].
  - apply (Hfuture "T2" session_T2);
      [vm_compute; reflexivity | vm_compute; reflexivity | vm_compute; reflexivity].
Defined.

(** C6.  The end of a timer sends the end notice and then removes the
    session of its transaction id and rewrites sessions.json; whether the
    notice got through (the flag of the [SendMessage] event) plays no part.
    When the session is already gone nothing is removed or written, so a
    second timer for the same id only sends its notice. *)
Theorem session_end_removes_session (phone : string) (duration : Z) (tid : string) (w : world) :
  let p := clean_number phone in
  let present := bool_decide (is_Some (active_sessions w !! tid)) in
  let w' := session_timer_cleanup phone duration tid w in
  let w'' := session_timer_cleanup phone duration tid w' in
  events_since w w'
  = SendMessage p (MsgEnded duration) (delivers w p (MsgEnded duration))
      :: (if present then [WriteSessions] else []) /\
  active_sessions w' = delete tid (active_sessions w) /\
  active_sessions w' !! tid = None /\
  sessions_file w' = (if present then Some (active_sessions w') else sessions_file w) /\
  events_since w' w'' = [SendMessage p (MsgEnded duration) (delivers w p (MsgEnded duration))] /\
  active_sessions w'' = active_sessions w' /\
  sessions_file w'' = sessions_file w'.
Proof.
  intros p present w' w''.
  assert (Hev : events_since w w'
                = SendMessage p (MsgEnded duration) (delivers w p (MsgEnded duration))
                    :: (if present then [WriteSessions] else [])).
  { apply events_since_app. apply session_timer_cleanup_trace. }
  assert (Hact : active_sessions w' = delete tid (active_sessions w)).
  { subst w' present. unfold session_timer_cleanup. simpl.
    destruct (bool_decide _) eqn:Hin; simpl; [reflexivity|].
    apply bool_decide_eq_false_1 in Hin. symmetry. apply delete_id.
    destruct (active_sessions w !! tid) eqn:E; [exfalso; apply Hin; eauto | reflexivity]. }
  assert (Hgone : active_sessions w' !! tid = None)
    by (rewrite Hact; apply lookup_delete_eq).
  assert (Hfile : sessions_file w'
                  = (if present then Some (active_sessions w') else sessions_file w)).
  { subst w' present. unfold session_timer_cleanup. simpl.
    destruct (bool_decide _); reflexivity. }
  assert (Hdel : delivers w' = delivers w).
  { subst w'. unfold session_timer_cleanup. simpl. destruct (bool_decide _); reflexivity. }
  assert (Habsent : bool_decide (is_Some (active_sessions w' !! tid)) = false).
  { apply bool_decide_eq_false_2. rewrite Hgone. intros [? ?]. discriminate. }
  repeat split; try assumption.
  - apply events_since_app. subst w''. rewrite session_timer_cleanup_trace.
    rewrite Habsent, Hdel. reflexivity.
  - subst w''. unfold session_timer_cleanup at 1. simpl.
    change (active_sessions (emit _ w')) with (active_sessions w').
    simpl. rewrite Habsent. reflexivity.
  - subst w''. unfold session_timer_cleanup at 1. simpl. rewrite Habsent. reflexivity.
Qed.

(** ** The token codec *)

(** C7.  Given the contracts of the libraries (Fernet decrypts what it
    encrypted under the same key, base64 and UTF-8 decode what they
    encoded), a token minted from claims [c] that survive a JSON round trip
    decrypts to exactly [c].  For any string, [decrypt] either raises its
    one error or returns the complete JSON document carried by a payload
    that passed every stage, Fernet's authentication included. *)
Theorem decrypt_encrypt (L : pylib) (key : bytes) :
  (forall k r m, fernet_decrypt L k (fernet_encrypt L k r m) = Some m) ->
  (forall b, urlsafe_b64decode L (urlsafe_b64encode L b) = Some b) ->
  (forall s, bytes_decode L (str_encode L s) = Some s) ->
  (forall b s, bytes_decode L b = Some s -> str_encode L s = b) ->
  (forall c iv token,
      json_loads L (json_dumps L c) = Some c ->
      encrypt L key iv c = Ok token ->
      decrypt L key token = Ok c) /\
  (forall t,
      decrypt L key t = Raise \/
      exists b m text c,
        urlsafe_b64decode L (str_encode L t) = Some b /\
        fernet_decrypt L key b = Some m /\
        bytes_decode L m = Some text /\
        json_loads L text = Some c /\
        decrypt L key t = Ok c).
Proof.
  intros Hfernet Hb64 Hutf8 Hutf8' . split.
  - intros c iv token Hjson Henc. unfold encrypt in Henc.
    destruct (bytes_decode L (urlsafe_b64encode L _)) as [tok|] eqn:Htok; [|discriminate].
    injection Henc as <-. unfold decrypt.
    rewrite (Hutf8' _ _ Htok), Hb64, Hfernet, Hutf8, Hjson. reflexivity.
  - intros t. unfold decrypt.
    destruct (urlsafe_b64decode L (str_encode L t)) as [b|]; [|left; reflexivity].
    destruct (fernet_decrypt L key b) as [m|] eqn:Hm; [|left; reflexivity].
    destruct (bytes_decode L m) as [text|] eqn:Htext; [|left; reflexivity].
    destruct (json_loads L text) as [c|] eqn:Hc; [|left; reflexivity].
    right. exists b, m, text, c. auto.
Qed.

Lemma strip_prefix_app (p b : bytes) : strip_prefix p (p ++ b) = Some b.
Proof.
  induction p as [|x p IH]; simpl; [destruct b; reflexivity|].
  assert (H : Byte.eqb x x = true) by (apply Byte.byte_dec_lb; reflexivity).
  rewrite H. exact IH.
Qed.

Lemma decrypt_encrypt_witness :
  decrypt sample_lib sample_key (sample_token claims_T1) = Ok claims_T1.
Proof.
  refine (proj1 (decrypt_encrypt sample_lib sample_key _ _ _ _) claims_T1 [] _ _ _).
  - intros k r m. apply strip_prefix_app.
  - reflexivity.
  - intros s. simpl. f_equal. apply string_of_list_byte_of_string.
  - intros b s [= <-]. simpl. apply list_byte_of_string_of_list_byte.
  - vm_compute. reflexivity.
  - vm_compute. reflexivity.
Defined.

(** ** Re-attaching to a session *)

Lemma opt_str_eq_json_true a b : opt_str_eq_json a b = true <-> b = json_of_opt_str a.
Proof.
  destruct a as [s|], b; simpl; split; try discriminate; try reflexivity.
  - intros H. apply String.eqb_eq in H. congruence.
  - intros [= ->]. apply String.eqb_refl.
Qed.

(** C8.  [verify_restore] never changes the state.  For a request whose
    transaction id is a string, a number, a boolean or missing, it returns
    the snapshot of the session exactly when the id is the key of an active
    session and the restore key sent equals the one of that session; in
    every other case it answers 403. *)
Theorem verify_restore_spec (L : pylib) (w : world) :
  (forall body, snd (verify_restore L body w) = w) /\
  (forall data,
      let transaction_id := dict_get data "transaction_id" JNull in
      let restore_key := dict_get data "restore_key" JNull in
      let r := fst (verify_restore L (Ok (JObj data)) w) in
      hashable transaction_id = true ->
      (forall tid s, transaction_id = JStr tid -> active_sessions w !! tid = Some s ->
                     restore_key = json_of_opt_str (s_restore_key s) ->
                     r = Restored (isoformat L (s_end_time s)) (s_duration s)
                                  (isoformat L (s_start_time s))) /\
      ((exists e d st, r = Restored e d st) <->
       (exists tid s, transaction_id = JStr tid /\ active_sessions w !! tid = Some s /\
                      restore_key = json_of_opt_str (s_restore_key s))) /\
      ((~ exists tid s, transaction_id = JStr tid /\ active_sessions w !! tid = Some s /\
                        restore_key = json_of_opt_str (s_restore_key s)) ->
       r = RestoreDenied)).
Proof.
  split.
  - intros [[]|]; simpl; try reflexivity.
    destruct (py_in _ _) as [[]|]; try reflexivity.
    destruct (py_index _ _); try reflexivity.
    destruct (opt_str_eq_json _ _); reflexivity.
  - intros data transaction_id restore_key r Hh.
    assert (Hcases :
      (exists tid s, transaction_id = JStr tid /\ active_sessions w !! tid = Some s /\
                     restore_key = json_of_opt_str (s_restore_key s) /\
                     r = Restored (isoformat L (s_end_time s)) (s_duration s)
                                  (isoformat L (s_start_time s))) \/
      ((~ exists tid s, transaction_id = JStr tid /\ active_sessions w !! tid = Some s /\
                        restore_key = json_of_opt_str (s_restore_key s)) /\
       r = RestoreDenied)).
    { subst r. unfold verify_restore. fold transaction_id restore_key.
      destruct transaction_id eqn:Ht; simpl in Hh; try discriminate; simpl;
        try (right; split; [intros (? & ? & [=] & _) | reflexivity]).
      destruct (active_sessions w !! s) as [ses|] eqn:Hs.
      - rewrite bool_decide_eq_true_2 by eauto.
        destruct (opt_str_eq_json (s_restore_key ses) restore_key) eqn:Hk.
        + left. exists s, ses. apply opt_str_eq_json_true in Hk. auto.
        + right. split; [|reflexivity].
          intros (tid & s' & [= <-] & Hs' & Hk').
          rewrite Hs in Hs'. injection Hs' as <-.
          apply opt_str_eq_json_true in Hk'. congruence.
      - rewrite bool_decide_eq_false_2 by (intros [? ?]; discriminate).
        right. split; [|reflexivity].
        intros (tid & s' & [= <-] & Hs' & _). rewrite Hs in Hs'. discriminate. }
    split; [|split].
    + intros tid s Ht Hs Hk.
      destruct Hcases as [(tid' & s' & Ht' & Hs' & _ & Hr)|[Hno _]].
      * rewrite Ht in Ht'. injection Ht' as <-. rewrite Hs in Hs'. injection Hs' as <-. exact Hr.
      * exfalso. apply Hno. eauto.
    + split.
      * intros (e & d & st & Hr).
        destruct Hcases as [(tid & s & Ht & Hs & Hk & _)|[_ Hd]]; [eauto|].
        rewrite Hd in Hr. discriminate.
      * intros (tid & s & Ht & Hs & Hk).
        destruct Hcases as [(tid' & s' & _ & _ & _ & Hr)|[Hno _]]; [eauto|].
        exfalso. apply Hno. eauto.
    + intros Hno. destruct Hcases as [(tid & s & Ht & Hs & Hk & _)|[_ Hd]]; [|exact Hd].
      exfalso. apply Hno. eauto.
Qed.

Lemma verify_restore_spec_witness :
  fst (verify_restore sample_lib
         (Ok (JObj [("transaction_id", JStr "T1"); ("restore_key", JStr "rk")]))
         (set_active_sessions {[ "T1" := session_T1 ]} empty_world))
  = Restored "1900000000" 15 "1000000000".
Proof.
  destruct (verify_restore_spec sample_lib (set_active_sessions {[ "T1" := session_T1 ]} empty_world))
    as [_ H].
  destruct (H [("transaction_id", JStr "T1"); ("restore_key", JStr "rk")]) as (Hok & _);
    [reflexivity|].
  apply (Hok "T1" session_T1); [reflexivity | vm_compute; reflexivity | reflexivity].
Defined.

(** ** The reporting task *)

Lemma get_stats_for_today_world L today w :
  snd (get_stats_for_today L today w) = emit GetStats w.
Proof.
  unfold get_stats_for_today. simpl. destruct (sheet w); try reflexivity.
  destruct (foldl _ _ _). reflexivity.
Qed.

Lemma get_stats_for_today_sheet L today w1 w2 :
  sheet w1 = sheet w2 ->
  fst (get_stats_for_today L today w1) = fst (get_stats_for_today L today w2).
Proof.
  unfold get_stats_for_today. simpl. intros ->. destruct (sheet w2); try reflexivity.
  destruct (foldl _ _ _). reflexivity.
Qed.

(** The second half of a turn, from the state [w1] reached once the wait
    is known. *)
Lemma hourly_stats_turn_report L S now new_now today date w w1 wait count total :
  hourly_wait L now w = Ok (wait, w1) ->
  fst (get_stats_for_today L today w1) = Ok (count, total) ->
  let admin := clean_number (ADMIN_PHONE S) in
  let w' := hourly_stats_turn L S now new_now today date w in
  trace w' = trace w1
             ++ (if (0 <? wait)%Z then [Sleep wait] else [])
             ++ [GetStats;
                 SendMessage admin (MsgHourlyReport date count total)
                   (delivers w1 admin (MsgHourlyReport date count total));
                 WriteServerState; Sleep (sec 1)] /\
  state_file w' = Some (Some (isoformat L new_now)).
Proof.
  intros Hwait Hstats admin w'. subst w'. unfold hourly_stats_turn. rewrite Hwait.
  set (w2 := if (0 <? wait)%Z then emit (Sleep wait) w1 else w1).
  assert (Hsheet : sheet w2 = sheet w1) by (subst w2; destruct (0 <? wait)%Z; reflexivity).
  pose proof (get_stats_for_today_sheet L today w2 w1 Hsheet) as Hfst.
  pose proof (get_stats_for_today_world L today w2) as Hsnd.
  destruct (get_stats_for_today L today w2) as [res w3]. simpl in Hfst, Hsnd.
  rewrite Hstats in Hfst. subst res w3. simpl. split; [|reflexivity].
  subst w2. destruct (0 <? wait)%Z; simpl; rewrite <- ?app_assoc; reflexivity.
Qed.

Lemma hourly_wait_frame L now w wait w1 :
  hourly_wait L now w = Ok (wait, w1) ->
  sheet w1 = sheet w /\ delivers w1 = delivers w /\
  (w1 = w \/ (w1 = save_server_state (Some (isoformat L now)) w /\ wait = sec 3600)).
Proof.
  unfold hourly_wait. destruct (load_server_state w) as [s|].
  - destruct (String.eqb s "").
    + intros [= <- <-]. auto.
    + destruct (fromisoformat L s) as [t|]; [|discriminate].
      destruct (add_minutes t 60); [|discriminate].
      intros [= <- <-]. auto.
  - intros [= <- <-]. auto.
Qed.

(** C9.  One turn of the reporting task, and the loop around it.  With no
    last report recorded, the turn records the current time, sleeps 3600
    seconds and only then asks the ledger and sends the report.  With a
    last report at [last], it sleeps up to [last] plus one hour (not at all
    when that is past), reports, and records the time read after the
    report.  A turn that fails, on a timestamp it cannot read or on a
    ledger it cannot connect to, ends in a sleep of 60 seconds; the task
    goes on with the next turn in every case. *)
Theorem hourly_stats_task_spec (L : pylib) (S : Settings) (now new_now : datetime)
    (today date : string) (w : world) :
  let w' := hourly_stats_turn L S now new_now today date w in
  let admin := clean_number (ADMIN_PHONE S) in
  (forall count total,
      load_server_state w = None \/ load_server_state w = Some "" ->
      fst (get_stats_for_today L today w) = Ok (count, total) ->
      events_since w w'
      = [WriteServerState; Sleep (sec 3600); GetStats;
         SendMessage admin (MsgHourlyReport date count total)
           (delivers w admin (MsgHourlyReport date count total));
         WriteServerState; Sleep (sec 1)] /\
      (exists w1, hourly_wait L now w = Ok (sec 3600, w1) /\
                  state_file w1 = Some (Some (isoformat L now))) /\
      state_file w' = Some (Some (isoformat L new_now))) /\
  (forall s last next count total,
      load_server_state w = Some s -> s <> "" ->
      fromisoformat L s = Some last ->
      add_minutes last 60 = Ok next ->
      fst (get_stats_for_today L today w) = Ok (count, total) ->
      next = last + sec 3600 /\
      events_since w w'
      = (if (0 <? next - now)%Z then [Sleep (next - now)] else [])
        ++ [GetStats;
            SendMessage admin (MsgHourlyReport date count total)
              (delivers w admin (MsgHourlyReport date count total));
            WriteServerState; Sleep (sec 1)] /\
      state_file w' = Some (Some (isoformat L new_now))) /\
  (hourly_wait L now w = Raise -> w' = emit (Sleep (sec 60)) w) /\
  (forall wait w1,
      hourly_wait L now w = Ok (wait, w1) -> sheet w = NoClient ->
      events_since w1 w'
      = (if (0 <? wait)%Z then [Sleep wait] else []) ++ [GetStats; Sleep (sec 60)]) /\
  (forall rest,
      hourly_stats_task L S ((now, new_now, today, date) :: rest) w = hourly_stats_task L S rest w').
Proof.
  intros w' admin. repeat apply conj.
  - intros count total Hunset Hstats.
    assert (Hwait : hourly_wait L now w
                    = Ok (sec 3600, save_server_state (Some (isoformat L now)) w)).
    { unfold hourly_wait. destruct Hunset as [-> | ->]; reflexivity. }
    destruct (hourly_stats_turn_report L S now new_now today date w _ _ count total Hwait)
      as [Htr Hst].
    { rewrite <- Hstats. apply get_stats_for_today_sheet. reflexivity. }
    split; [|split; [eauto | exact Hst]].
    apply events_since_app. fold w' in Htr. rewrite Htr. simpl.
    rewrite <- app_assoc. reflexivity.
  - intros s last next count total Hs Hne Hlast Hnext Hstats.
    assert (Hwait : hourly_wait L now w = Ok (next - now, w)).
    { unfold hourly_wait. rewrite Hs.
      destruct (String.eqb_spec s ""); [contradiction|]. rewrite Hlast, Hnext. reflexivity. }
    destruct (hourly_stats_turn_report L S now new_now today date w _ _ count total Hwait Hstats)
      as [Htr Hst].
    split; [|split; [|exact Hst]].
    + unfold add_minutes in Hnext. destruct (bool_decide _); [|discriminate].
      injection Hnext as <-. unfold sec. lia.
    + apply events_since_app. exact Htr.
  - intros Hraise. subst w'. unfold hourly_stats_turn. rewrite Hraise. reflexivity.
  - intros wait w1 Hwait Hsheet. subst w'. unfold hourly_stats_turn. rewrite Hwait.
    destruct (hourly_wait_frame _ _ _ _ _ Hwait) as (Hsh & _ & _).
    unfold get_stats_for_today.
    destruct (0 <? wait)%Z; simpl; rewrite Hsh, Hsheet; simpl;
      apply events_since_app; simpl; rewrite <- ?app_assoc; reflexivity.
  - intros rest. reflexivity.
Qed.

Lemma hourly_stats_task_spec_witness :
  events_since empty_world
    (hourly_stats_turn sample_lib sample_settings (sec 10) (sec 3611) "2025-01-01" "2025-01-01" empty_world)
  = [WriteServerState; Sleep (sec 3600); GetStats;
     SendMessage "919000000000" (MsgHourlyReport "2025-01-01" 0 0) false; WriteServerState; Sleep (sec 1)] /\
  events_since world_reported
    (hourly_stats_turn sample_lib sample_settings (sec 4000) (sec 4601) "2025-01-01" "2025-01-01"
       world_reported)
  = [Sleep (sec 600); GetStats; SendMessage "919000000000" (MsgHourlyReport "2025-01-01" 1 50) false;
     WriteServerState; Sleep (sec 1)] /\
  hourly_stats_turn sample_lib sample_settings (sec 4000) (sec 4601) "2025-01-01" "2025-01-01"
    (set_state_file (Some (Some "yesterday")) empty_world)
  = emit (Sleep (sec 60)) (set_state_file (Some (Some "yesterday")) empty_world).
Proof.
  split; [|split].
  - destruct (hourly_stats_task_spec sample_lib sample_settings (sec 10) (sec 3611)
                "2025-01-01" "2025-01-01" empty_world) as (Hunset & _).
    destruct (Hunset 0 0) as (Hev & _); [left; reflexivity | reflexivity |].
    exact Hev.
  - destruct (hourly_stats_task_spec sample_lib sample_settings (sec 4000) (sec 4601)
                "2025-01-01" "2025-01-01" world_reported) as (_ & Hset & _).
    destruct (Hset "1000000000" (sec 1000) (sec 4600) 1 50) as (_ & Hev & _);
      [reflexivity | discriminate | reflexivity | reflexivity | vm_compute; reflexivity |].
    exact Hev.
  - destruct (hourly_stats_task_spec sample_lib sample_settings (sec 4000) (sec 4601)
                "2025-01-01" "2025-01-01" (set_state_file (Some (Some "yesterday")) empty_world))
      as (_ & _ & Hfail & _).
    apply Hfail. reflexivity.
Defined.

(** ** Starting a session *)

Lemma truthy_Some s : truthy (Some s) = true <-> s <> "".
Proof. destruct s; simpl; split; congruence. Qed.

(** What an accepted call does to the state. *)
Lemma start_timer_accepted L now fresh_key phone duration name tid w end_time :
  name <> "" -> tid <> "" ->
  let duration_int := match py_int L duration with Some n => n | None => 15 end in
  add_minutes now duration_int = Ok end_time ->
  let w' := snd (start_timer L now fresh_key phone duration (Some name) (Some tid) w) in
  fst (start_timer L now fresh_key phone duration (Some name) (Some tid) w)
  = Ok (TimerStarted (isoformat L end_time) duration_int fresh_key) /\
  active_sessions w'
  = <[tid := Session name phone tid duration_int now end_time (Some fresh_key)]>
      (active_sessions w) /\
  pending_keys w' = delete tid (pending_keys w) /\
  sessions_file w' = Some (active_sessions w') /\
  trace w' = trace w
             ++ WriteSessions
                :: (if bool_decide (is_Some (pending_keys w !! tid)) then [WritePendingKeys] else [])
             ++ [WriteSessions; SpawnTimer phone duration_int tid false None].
Proof.
  intros Hname Htid duration_int Hend w'. subst w'. unfold start_timer.
  apply truthy_Some in Hname. apply truthy_Some in Htid. rewrite Hname, Htid. simpl.
  fold duration_int. rewrite Hend. simpl.
  destruct (bool_decide (is_Some (pending_keys w !! tid))) eqn:Hin; simpl.
  - rewrite alter_insert_eq. simpl. repeat split. rewrite <- !app_assoc. reflexivity.
  - rewrite alter_insert_eq. simpl. repeat split.
    + apply bool_decide_eq_false_1 in Hin. symmetry. apply delete_id.
      destruct (pending_keys w !! tid) eqn:E; [exfalso; apply Hin; eauto | reflexivity].
    + rewrite <- !app_assoc. reflexivity.
Qed.

(** C10.  A duration that [int()] does not accept is never refused: with a
    name and a transaction id, the call creates the session with 15
    minutes, writes it to sessions.json, starts one timer of 15 minutes and
    answers "Timer started".  The only refusal is the 400 for a missing
    name or transaction id. *)
Theorem start_timer_defaults_duration (L : pylib) (now : datetime) (fresh_key phone : string)
    (w : world) :
  (forall duration name tid,
      py_int L duration = None ->
      name <> "" -> tid <> "" ->
      0 <= now <= DATETIME_MAX - sec (15 * 60) ->
      let end_time := now + sec (15 * 60) in
      let w' := snd (start_timer L now fresh_key phone duration (Some name) (Some tid) w) in
      fst (start_timer L now fresh_key phone duration (Some name) (Some tid) w)
      = Ok (TimerStarted (isoformat L end_time) 15 fresh_key) /\
      active_sessions w' !! tid
      = Some (Session name phone tid 15 now end_time (Some fresh_key)) /\
      sessions_file w' = Some (active_sessions w') /\
      List.filter (is_timer_for tid) (events_since w w')
      = [SpawnTimer phone 15 tid false None]) /\
  (forall duration name tid,
      fst (start_timer L now fresh_key phone duration name tid w) = Ok StartRejected <->
      truthy name = false \/ truthy tid = false).
Proof.
  split.
  - intros duration name tid Hint Hname Htid Hnow end_time w'.
    assert (Hend : add_minutes now 15 = Ok end_time).
    { unfold add_minutes. rewrite bool_decide_eq_true_2; [reflexivity|].
      unfold sec in *. lia. }
    pose proof (start_timer_accepted L now fresh_key phone duration name tid w end_time
                  Hname Htid) as H.
    cbv zeta in H. rewrite Hint in H. destruct (H Hend) as (Hr & Ha & _ & Hf & Ht).
    fold w' in Ha, Hf, Ht.
    split; [exact Hr|]. split; [rewrite Ha; apply lookup_insert_eq|]. split; [exact Hf|].
    erewrite events_since_app; [|exact Ht].
    simpl. rewrite List.filter_app. simpl. rewrite String.eqb_refl.
    destruct (bool_decide _); reflexivity.
  - intros duration name tid. unfold start_timer.
    destruct name as [name|], tid as [tid|];
      try (split; [intros _; auto | reflexivity]).
    destruct (truthy (Some name)) eqn:Hn, (truthy (Some tid)) eqn:Ht; cbn [negb orb];
      try (split; [intros _; auto | reflexivity]).
    destruct (add_minutes _ _); cbn [fst];
      (split; [discriminate | intros [|]; discriminate]).
Qed.

Lemma start_timer_defaults_duration_witness :
  fst (start_timer sample_lib (sec 1000) "rk" "9876543210" "abc" (Some "Asha") (Some "T1")
         world_T1)
  = Ok (TimerStarted "1900000000" 15 "rk") /\
  active_sessions
    (snd (start_timer sample_lib (sec 1000) "rk" "9876543210" "abc" (Some "Asha") (Some "T1")
            world_T1)) !! "T1"
  = Some session_T1.
Proof.
  destruct (start_timer_defaults_duration sample_lib (sec 1000) "rk" "9876543210" world_T1)
    as [Hdefault _].
  destruct (Hdefault "abc" "Asha" "T1") as (Hr & Ha & _);
    [reflexivity | discriminate | discriminate | vm_compute; split; discriminate |].
  split; [exact Hr | exact Ha].
Defined.

(** * Further properties *)

(** ** The gate, case by case *)

(** The admission path: claims with a string id that has no session, the
    right key and a phone number, on a ledger that can be reached. *)
Lemma verify_entry_success L key now token w data tid k p :
  decrypt L key token = Ok (JObj data) ->
  dict_get data "transaction_id" JNull = JStr tid ->
  active_sessions w !! tid = None ->
  pending_keys w !! tid = Some k ->
  dict_get data "secure_key" JNull = JStr k ->
  dict_get data "phone" JNull = JStr p ->
  sheet w <> NoClient ->
  let name := dict_get data "name" JNull in
  let duration := dict_get data "duration" (JInt 15) in
  let w' := snd (verify_entry L key now token w) in
  fst (verify_entry L key now token w)
  = ScanSuccess name (JStr tid) duration (dict_get data "plan" (JStr "Unknown")) (JStr p) now /\
  trace w' = trace w ++ [UpdateEntryStatus (JStr tid) "In";
                         SendMessage (clean_number p) (MsgWelcome name duration)
                           (delivers w (clean_number p) (MsgWelcome name duration))] /\
  sheet w' <> NoClient /\ delivers w' = delivers w.
Proof.
  intros Hdec Htid Hact Hpend Hkey Hphone Hsheet name duration w'. subst w'.
  unfold verify_entry. rewrite Hdec, Htid, Hkey, Hphone. simpl.
  rewrite Hact, Hpend. rewrite bool_decide_eq_false_2 by (intros [? ?]; discriminate).
  rewrite String.eqb_refl. simpl.
  unfold update_entry_status. simpl.
  destruct (sheet w) as [| |rows] eqn:Hs; [contradiction| |].
  - simpl. rewrite Hs. repeat split; try discriminate. rewrite <- app_assoc. reflexivity.
  - destruct (find tid rows) as [[r c]|]; simpl; rewrite ?Hs;
      (repeat split; try discriminate; rewrite <- app_assoc; reflexivity).
Qed.

Lemma get_entry_status_world t w :
  snd (get_entry_status t w) = emit (GetEntryStatus t) w.
Proof.
  unfold get_entry_status. simpl. destruct (sheet w); try reflexivity.
  destruct t; try reflexivity. destruct (find s rows) as [[? ?]|]; reflexivity.
Qed.

(** X1.  Every answer of the gate other than the admission and the
    processing failure is given without writing to the ledger and without
    a message, and no answer at all changes a store or a file. *)
Theorem verify_entry_rejections_read_only (L : pylib) (key : bytes) (now : datetime)
    (token : string) (w : world) :
  let r := verify_entry L key now token w in
  same_stores w (snd r) /\
  ((forall n t d p ph tm, fst r <> ScanSuccess n t d p ph tm) ->
   fst r <> ScanError "Verification Processing Failed" ->
   sheet (snd r) = sheet w /\
   List.filter is_gate_effect (events_since w (snd r)) = []).
Proof.
  intros r. split; [apply verify_entry_keeps_stores|].
  subst r. unfold verify_entry.
  assert (Hw : sheet w = sheet w /\ List.filter is_gate_effect (events_since w w) = []).
  { split; [reflexivity|]. unfold events_since. rewrite drop_all. reflexivity. }
  destruct (decrypt L key token) as [[]|]; simpl; try (intros _ _; exact Hw).
  destruct (py_in _ (active_sessions w)) as [[]|]; simpl; try (intros _ _; exact Hw);
    try (intros _ Hf; contradiction).
  destruct (py_index _ (pending_keys w)).
  - destruct (negb _); simpl; [intros _ _; exact Hw|].
    destruct (update_entry_status _ "In" w) as [[b|] w1]; simpl;
      [|intros _ Hf; contradiction].
    destruct (send_message_json _ _ w1) as [[? ?]|]; simpl;
      [intros Hs _; exfalso; eapply Hs; reflexivity | intros _ Hf; contradiction].
  - pose proof (get_entry_status_world (dict_get members "transaction_id" JNull) w) as Hg.
    destruct (get_entry_status _ w) as [[st|] w1]; simpl in Hg; subst w1; simpl;
      [|intros _ Hf; contradiction].
    destruct (status_is_in st); simpl; intros _ _;
      (split; [reflexivity | rewrite events_since_emit; reflexivity]).
Qed.

Lemma verify_entry_rejections_read_only_witness :
  sheet (snd (verify_entry sample_lib sample_key 0 "garbage" world_T1)) = sheet world_T1 /\
  List.filter is_gate_effect
    (events_since world_T1 (snd (verify_entry sample_lib sample_key 0 "garbage" world_T1))) = [].
Proof.
  apply (proj2 (verify_entry_rejections_read_only sample_lib sample_key 0 "garbage" world_T1)).
  - intros n t d p ph tm. vm_compute. discriminate.
  - vm_compute. discriminate.
Defined.

(** A pending key that is not the one of the token: refused, state as it
    was. *)
Lemma verify_entry_mismatch L key now token w data tid k :
  decrypt L key token = Ok (JObj data) ->
  dict_get data "transaction_id" JNull = JStr tid ->
  active_sessions w !! tid = None ->
  pending_keys w !! tid = Some k ->
  dict_get data "secure_key" JNull <> JStr k ->
  verify_entry L key now token w = (ScanError "Security Check Failed: Invalid Key.", w).
Proof.
  intros Hdec Htid Hact Hpend Hkey. unfold verify_entry. rewrite Hdec, Htid. simpl.
  rewrite Hact, Hpend. rewrite bool_decide_eq_false_2 by (intros [? ?]; discriminate).
  assert (H : str_eq_json k (dict_get data "secure_key" JNull) = false).
  { destruct (dict_get data "secure_key" JNull); try reflexivity. simpl.
    destruct (String.eqb_spec k s); [subst; contradiction | reflexivity]. }
  rewrite H. reflexivity.
Qed.

(** X2.  Scanning a code twice before its session is started admits it
    twice: both scans succeed with the same claims, and each one writes the
    status and sends the welcome message. *)
Theorem verify_entry_rescan_before_start (L : pylib) (key : bytes) (now1 now2 : datetime)
    (token : string) (w : world) (data : list (string * json)) (tid k p : string) :
  decrypt L key token = Ok (JObj data) ->
  dict_get data "transaction_id" JNull = JStr tid ->
  active_sessions w !! tid = None ->
  pending_keys w !! tid = Some k ->
  dict_get data "secure_key" JNull = JStr k ->
  dict_get data "phone" JNull = JStr p ->
  sheet w <> NoClient ->
  let name := dict_get data "name" JNull in
  let duration := dict_get data "duration" (JInt 15) in
  let plan := dict_get data "plan" (JStr "Unknown") in
  let w1 := snd (verify_entry L key now1 token w) in
  let w2 := snd (verify_entry L key now2 token w1) in
  let sent := SendMessage (clean_number p) (MsgWelcome name duration)
                (delivers w (clean_number p) (MsgWelcome name duration)) in
  fst (verify_entry L key now1 token w) = ScanSuccess name (JStr tid) duration plan (JStr p) now1 /\
  fst (verify_entry L key now2 token w1) = ScanSuccess name (JStr tid) duration plan (JStr p) now2 /\
  events_since w w2
  = [UpdateEntryStatus (JStr tid) "In"; sent; UpdateEntryStatus (JStr tid) "In"; sent].
Proof.
  intros Hdec Htid Hact Hpend Hkey Hphone Hsheet name duration plan w1 w2 sent.
  destruct (verify_entry_success L key now1 token w data tid k p
              Hdec Htid Hact Hpend Hkey Hphone Hsheet) as (Hr1 & Ht1 & Hs1 & Hd1).
  destruct (verify_entry_keeps_stores L key now1 token w) as (Hp1 & Ha1 & _).
  fold w1 in Ht1, Hs1, Hd1, Hp1, Ha1.
  destruct (verify_entry_success L key now2 token w1 data tid k p Hdec Htid) as (Hr2 & Ht2 & _);
    [rewrite Ha1; exact Hact | rewrite Hp1; exact Hpend | exact Hkey | exact Hphone | exact Hs1 |].
  fold w2 in Ht2.
  split; [exact Hr1|]. split; [exact Hr2|].
  apply events_since_app. rewrite Ht2, Ht1, Hd1, <- app_assoc. reflexivity.
Qed.

Lemma verify_entry_rescan_before_start_witness :
  events_since world_T1
    (snd (verify_entry sample_lib sample_key (sec 1001) (sample_token claims_T1)
            world_T1_admitted))
  = [UpdateEntryStatus (JStr "T1") "In";
     SendMessage "919876543210" (MsgWelcome (JStr "Asha") (JInt 15)) false;
     UpdateEntryStatus (JStr "T1") "In";
     SendMessage "919876543210" (MsgWelcome (JStr "Asha") (JInt 15)) false].
Proof.
  refine (proj2 (proj2 (verify_entry_rescan_before_start sample_lib sample_key (sec 1000)
            (sec 1001) (sample_token claims_T1) world_T1
            (match claims_T1 with JObj d => d | _ => [] end) "T1" "00000000000042" "9876543210"
            _ _ _ _ _ _ _))); try (vm_compute; reflexivity).
  discriminate.
Defined.

(** ** Issuing a code *)

Lemma decrypt_after_encrypt L key iv c token :
  codec_contracts L ->
  json_loads L (json_dumps L c) = Some c ->
  encrypt L key iv c = Ok token ->
  decrypt L key token = Ok c.
Proof.
  intros (Hfernet & Hb64 & Hutf8 & Hutf8') Hjson Henc. unfold encrypt in Henc.
  destruct (bytes_decode L (urlsafe_b64encode L _)) as [tok|] eqn:Htok; [|discriminate].
  injection Henc as <-. unfold decrypt.
  rewrite (Hutf8' _ _ Htok), Hb64, Hfernet, Hutf8, Hjson. reflexivity.
Qed.

Lemma append_data_frame row w :
  let w' := snd (append_data row w) in
  active_sessions w' = active_sessions w /\ pending_keys w' = pending_keys w /\
  pending_keys_file w' = pending_keys_file w /\ sessions_file w' = sessions_file w /\
  delivers w' = delivers w /\ (sheet w <> NoClient -> sheet w' <> NoClient).
Proof.
  unfold append_data. destruct (sheet w) eqn:Hs; simpl; rewrite ?Hs; repeat split; auto;
    try discriminate.
Qed.

(** What [process_entry_task] does to the stores, wherever it stops. *)
Lemma process_entry_task_frame L key S rand iv ip qr ts name phone tid plan mode w :
  let w' := process_entry_task L key S rand iv ip qr ts name phone tid plan mode w in
  pending_keys w' = <[tid := secure_key_of rand]> (pending_keys w) /\
  pending_keys_file w' = Some (pending_keys w') /\
  active_sessions w' = active_sessions w /\
  sessions_file w' = sessions_file w /\
  delivers w' = delivers w /\
  (sheet w <> NoClient -> sheet w' <> NoClient).
Proof.
  unfold process_entry_task, secure_key_of.
  destruct (parse_plan plan) as [[amount duration] plan_name].
  destruct (encrypt L key iv _) as [token|]; [|simpl; repeat split; auto].
  destruct (qr _) as [path|]; [|simpl; repeat split; auto].
  destruct (negb (String.eqb (SHEET_URL S) "")); [|simpl; repeat split; auto].
  match goal with
  | |- context [append_data ?row ?w0] =>
      destruct (append_data_frame row w0) as (Ha & Hp & Hpf & Hsf & Hd & Hsh)
  end.
  simpl in *. rewrite Ha, Hp, Hpf, Hsf, Hd. repeat split; auto.
Qed.

(** X3.  The token that [process_entry_task] puts in the QR code is
    admitted by the gate: under the contracts of the codec libraries, with
    no session running for the id and a reachable ledger, scanning it
    succeeds with the claims it was minted with. *)
Theorem minted_token_is_admitted (L : pylib) (key : bytes) (S : Settings) (rand : Z) (iv : bytes)
    (ip : string) (qr : string -> py string) (ts name phone tid plan mode : string)
    (now : datetime) (token : string) (w : world) :
  let '(amount, duration, plan_name) := parse_plan plan in
  let number := remove_char "+" (remove_char "-" (remove_char " " phone)) in
  let claims := claims_of tid name number duration amount plan_name (secure_key_of rand) in
  codec_contracts L ->
  json_loads L (json_dumps L claims) = Some claims ->
  encrypt L key iv claims = Ok token ->
  active_sessions w !! tid = None ->
  sheet w <> NoClient ->
  let w1 := process_entry_task L key S rand iv ip qr ts name phone tid plan mode w in
  GenerateQr ("http://" ++ ip ++ ":" ++ str_of_Z 5000 ++ "/verify?token=" ++ token)%string
    ∈ events_since w w1 /\
  pending_keys w1 !! tid = Some (secure_key_of rand) /\
  fst (verify_entry L key now token w1)
  = ScanSuccess (JStr name) (JStr tid) (JInt duration) (JStr plan_name) (JStr number) now.
Proof.
  destruct (parse_plan plan) as [[amount duration] plan_name] eqn:Hplan.
  intros number claims HL Hjson Henc Hact Hsheet w1.
  pose proof (process_entry_task_frame L key S rand iv ip qr ts name phone tid plan mode w)
    as (Hp & _ & Ha & _ & _ & Hsh).
  fold w1 in Hp, Ha, Hsh.
  split; [|split].
  - subst w1. unfold process_entry_task. rewrite Hplan. fold number.
    fold (secure_key_of rand). fold claims. rewrite Henc.
    cbv zeta.
    set (ev := GenerateQr _).
    set (w0 := emit ev _).
    assert (H0 : trace w0 = trace w ++ [WritePendingKeys; ev])
      by (subst w0; simpl; rewrite <- app_assoc; reflexivity).
    assert (Hin : forall w2, (exists more, trace w2 = trace w0 ++ more) ->
                             ev ∈ events_since w w2).
    { intros w2 [more H2]. erewrite events_since_app;
        [|rewrite H2, H0, <- app_assoc; reflexivity].
      simpl. apply list_elem_of_further, list_elem_of_here. }
    destruct (qr _) as [path|].
    + apply Hin.
      destruct (negb (String.eqb (SHEET_URL S) "")).
      * unfold append_data. destruct (sheet w0); simpl; eexists;
          rewrite <- ?app_assoc; reflexivity.
      * simpl. eexists. reflexivity.
    + apply Hin. exists []. symmetry. apply app_nil_r.
  - rewrite Hp. apply lookup_insert_eq.
  - pose proof (decrypt_after_encrypt L key iv claims token HL Hjson Henc) as Hdec.
    refine (proj1 (verify_entry_success L key now token w1 _ tid (secure_key_of rand) number
                     Hdec _ _ _ _ _ _)); try reflexivity.
    + rewrite Ha. exact Hact.
    + rewrite Hp. apply lookup_insert_eq.
    + apply Hsh. exact Hsheet.
Qed.

Lemma sample_lib_contracts : codec_contracts sample_lib.
Proof.
  repeat split.
  - intros k r m. apply strip_prefix_app.
  - intros s. simpl. f_equal. apply string_of_list_byte_of_string.
  - intros b s [= <-]. simpl. apply list_byte_of_string_of_list_byte.
Qed.

Lemma minted_token_is_admitted_witness :
  pending_keys world_T1_issued !! "T1" = Some "00000000000042" /\
  fst (verify_entry sample_lib sample_key (sec 1000) (sample_token claims_T1) world_T1_issued)
  = ScanSuccess (JStr "Asha") (JStr "T1") (JInt 15) (JStr "Premium") (JStr "9876543210")
      (sec 1000).
Proof.
  pose proof (minted_token_is_admitted sample_lib sample_key sample_settings 42 [] "10.0.0.2"
                sample_qr "2025-01-01 10:00:00" "Asha" "+98765 43210" "T1" "premium_50" "online"
                (sec 1000) (sample_token claims_T1)
                (set_sheet (Sheet (take 1 sheet_T1)) empty_world)) as H.
  cbv beta iota zeta delta [parse_plan String.eqb Ascii.eqb Bool.eqb] in H.
  destruct H as (_ & Hp & Hv);
    [apply sample_lib_contracts | vm_compute; reflexivity | vm_compute; reflexivity
    | vm_compute; reflexivity | discriminate |].
  split; [exact Hp | exact Hv].
Defined.

(** X4.  Issuing a code again for the same transaction id replaces the
    pending key: a token whose key is not the new one is refused with the
    security-check answer, and nothing is written. *)
Theorem reissued_code_refuses_previous_token (L : pylib) (key : bytes) (S : Settings)
    (rand : Z) (iv : bytes) (ip : string) (qr : string -> py string)
    (ts name phone tid plan mode : string) (now : datetime) (token : string) (w : world)
    (data : list (string * json)) :
  decrypt L key token = Ok (JObj data) ->
  dict_get data "transaction_id" JNull = JStr tid ->
  dict_get data "secure_key" JNull <> JStr (secure_key_of rand) ->
  active_sessions w !! tid = None ->
  let w' := process_entry_task L key S rand iv ip qr ts name phone tid plan mode w in
  verify_entry L key now token w' = (ScanError "Security Check Failed: Invalid Key.", w').
Proof.
  intros Hdec Htid Hkey Hact w'.
  pose proof (process_entry_task_frame L key S rand iv ip qr ts name phone tid plan mode w)
    as (Hp & _ & Ha & _).
  fold w' in Hp, Ha.
  apply (verify_entry_mismatch L key now token w' data tid (secure_key_of rand) Hdec Htid);
    [rewrite Ha; exact Hact | rewrite Hp; apply lookup_insert_eq | exact Hkey].
Qed.

Lemma reissued_code_refuses_previous_token_witness :
  fst (verify_entry sample_lib sample_key (sec 1000) (sample_token claims_T1)
         (process_entry_task sample_lib sample_key sample_settings 77 [] "10.0.0.2" sample_qr
            "2025-01-01 10:05:00" "Asha" "9876543210" "T1" "premium_50" "online"
            world_T1_issued))
  = ScanError "Security Check Failed: Invalid Key.".
Proof.
  rewrite (reissued_code_refuses_previous_token sample_lib sample_key sample_settings 77 []
             "10.0.0.2" sample_qr "2025-01-01 10:05:00" "Asha" "9876543210" "T1" "premium_50"
             "online" (sec 1000) (sample_token claims_T1) world_T1_issued
             (match claims_T1 with JObj d => d | _ => [] end));
    [reflexivity | vm_compute; reflexivity | reflexivity | vm_compute; discriminate
    | vm_compute; reflexivity].
Defined.

(** ** Starting a session, in full *)

Lemma start_timer_started_inv L now fresh_key phone duration name tid w e d r w' :
  start_timer L now fresh_key phone duration name (Some tid) w = (Ok (TimerStarted e d r), w') ->
  exists name' end_time,
    name = Some name' /\ name' <> "" /\ tid <> "" /\
    add_minutes now (match py_int L duration with Some n => n | None => 15 end) = Ok end_time.
Proof.
  unfold start_timer. destruct name as [name'|]; [|discriminate].
  destruct (truthy (Some name')) eqn:Hn, (truthy (Some tid)) eqn:Ht; cbn [negb orb];
    try discriminate.
  destruct (add_minutes _ _) as [end_time|]; [|discriminate].
  intros _. exists name', end_time. apply truthy_Some in Hn. apply truthy_Some in Ht. auto.
Qed.

(** X5.  Once a session is started for a transaction id, scanning a token
    of that id offers to restore the session: nothing is admitted a second
    time and the state does not change. *)
Theorem started_session_rescan_offers_restore (L : pylib) (key : bytes) (now now' : datetime)
    (fresh_key phone duration : string) (name : option string) (tid : string) (w w1 : world)
    (e : string) (d : Z) (r : string) (token : string) (data : list (string * json)) :
  start_timer L now fresh_key phone duration name (Some tid) w = (Ok (TimerStarted e d r), w1) ->
  decrypt L key token = Ok (JObj data) ->
  dict_get data "transaction_id" JNull = JStr tid ->
  verify_entry L key now' token w1
  = (ScanCheckRestore (JStr tid) (dict_get data "name" JNull) (dict_get data "phone" JNull)
       (dict_get data "duration" (JInt 15)) (dict_get data "plan" (JStr "Unknown")), w1).
Proof.
  intros Hstart Hdec Htid.
  destruct (start_timer_started_inv _ _ _ _ _ _ _ _ _ _ _ _ Hstart)
    as (name' & end_time & -> & Hname & Htidne & Hend).
  destruct (start_timer_accepted L now fresh_key phone duration name' tid w end_time
              Hname Htidne Hend) as (_ & Ha & _).
  rewrite Hstart in Ha. simpl in Ha.
  unfold verify_entry. rewrite Hdec, Htid. simpl.
  rewrite Ha, lookup_insert_eq. rewrite bool_decide_eq_true_2 by eauto. reflexivity.
Qed.

Lemma started_session_rescan_offers_restore_witness :
  verify_entry sample_lib sample_key (sec 1001) (sample_token claims_T1) world_T1_started
  = (ScanCheckRestore (JStr "T1") (JStr "Asha") (JStr "9876543210") (JInt 15) (JStr "Premium"),
     world_T1_started).
Proof.
  apply (started_session_rescan_offers_restore sample_lib sample_key (sec 1000) (sec 1001)
           "rk" "9876543210" "15" (Some "Asha") "T1" world_T1_admitted world_T1_started
           "1900000000" 15 "rk" (sample_token claims_T1)
           (match claims_T1 with JObj d => d | _ => [] end));
    [vm_compute; reflexivity | vm_compute; reflexivity | reflexivity].
Defined.

(** X6.  A call of [start_timer] either starts a session or changes
    nothing.  When it starts one, the session stored under the id begins at
    the clock reading, ends [duration] minutes later, inside the range of
    [datetime], and carries the fresh restore key; the answer gives that
    end time.  When it is refused or fails on the date arithmetic, the
    state is the one it was called with. *)
Theorem start_timer_all_or_nothing (L : pylib) (now : datetime) (fresh_key phone duration : string)
    (name transaction_id : option string) (w : world) :
  let r := start_timer L now fresh_key phone duration name transaction_id w in
  (exists name' tid d end_time,
      name = Some name' /\ transaction_id = Some tid /\
      fst r = Ok (TimerStarted (isoformat L end_time) d fresh_key) /\
      active_sessions (snd r) !! tid
      = Some (Session name' phone tid d now end_time (Some fresh_key)) /\
      end_time = now + sec (d * 60) /\ 0 <= end_time <= DATETIME_MAX) \/
  ((fst r = Ok StartRejected \/ fst r = Raise) /\ snd r = w).
Proof.
  intros r. subst r.
  destruct name as [name'|], transaction_id as [tid|];
    try (right; split; [left|]; reflexivity).
  destruct (String.eqb_spec name' "") as [->|Hname];
    [right; split; [left|]; reflexivity|].
  destruct (String.eqb_spec tid "") as [->|Htid];
    [right; split; [left|]; destruct name'; reflexivity|].
  destruct (add_minutes now (match py_int L duration with Some n => n | None => 15 end))
    as [end_time|] eqn:Hend.
  - left.
    destruct (start_timer_accepted L now fresh_key phone duration name' tid w end_time)
      as (Hr & Ha & _); [assumption..|].
    exists name', tid, (match py_int L duration with Some n => n | None => 15 end), end_time.
    repeat split; try assumption.
    + rewrite Ha. apply lookup_insert_eq.
    + unfold add_minutes in Hend. destruct (bool_decide _); [|discriminate]. congruence.
    + unfold add_minutes in Hend. destruct (bool_decide _) eqn:Hb; [|discriminate].
      apply bool_decide_eq_true_1 in Hb. injection Hend as <-. apply Hb.
    + unfold add_minutes in Hend. destruct (bool_decide _) eqn:Hb; [|discriminate].
      apply bool_decide_eq_true_1 in Hb. injection Hend as <-. apply Hb.
  - right. unfold start_timer.
    assert (Hn : truthy (Some name') = true) by (apply truthy_Some; assumption).
    assert (Ht : truthy (Some tid) = true) by (apply truthy_Some; assumption).
    rewrite Hn, Ht. cbn [negb orb]. rewrite Hend. split; [right|]; reflexivity.
Qed.

(** ** Write-through persistence *)

Lemma session_timer_wait_frame S phone D is_resume rs w :
  let w' := session_timer_wait S phone D is_resume rs w in
  active_sessions w' = active_sessions w /\ pending_keys w' = pending_keys w /\
  pending_keys_file w' = pending_keys_file w /\ sessions_file w' = sessions_file w /\
  delivers w' = delivers w /\ sheet w' = sheet w.
Proof.
  unfold session_timer_wait.
  destruct is_resume, rs; simpl;
    repeat (match goal with |- context [if ?b then _ else _] => destruct b end; simpl);
    repeat split.
Qed.

Lemma session_timer_cleanup_synced phone D tid w :
  synced w -> synced (session_timer_cleanup phone D tid w).
Proof.
  intros [Hp Hs]. unfold session_timer_cleanup. simpl.
  destruct (bool_decide _); simpl; split; auto.
Qed.

Lemma start_timer_synced L now fresh_key phone duration name tid w :
  synced w -> synced (snd (start_timer L now fresh_key phone duration name tid w)).
Proof.
  intros [Hp Hs]. unfold start_timer.
  destruct name as [name'|], tid as [tid'|]; try (split; assumption).
  destruct (negb _ || negb _); [split; assumption|].
  destruct (add_minutes _ _); [|split; assumption].
  simpl. destruct (bool_decide _); simpl; split; auto.
Qed.

Lemma startup_after_import_synced now1 now2 w :
  synced (startup_event now1 now2 (import_main w)).
Proof.
  set (w0 := import_main w).
  assert (Hact : active_sessions w0 = ∅).
  { subst w0. unfold import_main, load_pending_keys. simpl.
    destruct (pending_keys_file w); reflexivity. }
  assert (Hpend : pending_keys_file w0 = Some (pending_keys w0) \/
                  (pending_keys_file w0 = None /\ pending_keys w0 = ∅)).
  { subst w0. unfold import_main, load_pending_keys. simpl.
    destruct (pending_keys_file w) eqn:E; simpl; rewrite E; auto. }
  destruct (sessions_file w0) as [data|] eqn:Hfile.
  - destruct (startup_event_shape now1 now2 w0 data Hfile Hact)
      as (pre & fl & -> & _ & Hlt & Hge).
    set (kept := filter (fun entry : string * session => now1 < s_end_time (snd entry)) data)
      in *.
    split; [exact Hpend|]. left. simpl.
    destruct (decide (size kept < size data)%nat) as [Hs|Hs].
    + apply Hlt. exact Hs.
    + rewrite (Hge Hs). f_equal. symmetry.
      apply map_subseteq_size_eq; [apply map_filter_subseteq | lia].
  - unfold startup_event, load_sessions. rewrite Hfile, Hact. simpl.
    rewrite map_filter_empty. simpl. rewrite foldl_restore_timer. simpl.
    split; [exact Hpend|]. right. split; [exact Hfile | reflexivity].
Qed.

(** X7.  The two files mirror the two stores.  A process that has been
    imported and started is in that state whatever the files held, and
    issuing a code, scanning, starting a session and a whole timer all keep
    it: every change of a store is followed by the write of its file. *)
Theorem stores_are_written_through :
  (forall now1 now2 w, synced (startup_event now1 now2 (import_main w))) /\
  (forall w, synced w ->
     (forall L key S rand iv ip qr ts name phone tid plan mode,
         synced (process_entry_task L key S rand iv ip qr ts name phone tid plan mode w)) /\
     (forall L key now token, synced (snd (verify_entry L key now token w))) /\
     (forall L now fresh_key phone duration name tid,
         synced (snd (start_timer L now fresh_key phone duration name tid w))) /\
     (forall S phone D tid is_resume rs,
         synced (session_timer_task S phone D tid is_resume rs w))).
Proof.
  split; [intros; apply startup_after_import_synced|].
  intros w [Hp Hs]. repeat apply conj.
  - intros. 
    pose proof (process_entry_task_frame L key S rand iv ip qr ts name phone tid plan mode w)
      as (_ & Hpf & Ha & Hsf & _).
    unfold synced. split; [left; exact Hpf | rewrite Ha, Hsf; exact Hs].
  - intros. unfold synced.
    destruct (verify_entry_keeps_stores L key now token w) as (-> & -> & -> & ->).
    split; assumption.
  - intros. apply start_timer_synced. split; assumption.
  - intros. unfold session_timer_task. apply session_timer_cleanup_synced. unfold synced.
    destruct (session_timer_wait_frame S phone D is_resume rs w) as (-> & -> & -> & -> & _).
    split; assumption.
Qed.

Lemma stores_are_written_through_witness :
  synced world_T1_issued /\ synced (startup_event 0 0 (import_main world_T1_issued)).
Proof.
  destruct stores_are_written_through as [Hboot Hops]. split; [|apply Hboot].
  destruct (Hops (set_sheet (Sheet (take 1 sheet_T1)) empty_world)) as (Hissue & _).
  - split; right; split; reflexivity.
  - apply Hissue.
Defined.

(** ** Restart *)

(** X8.  A session started before a restart is resumed after it: when the
    process is imported and started again on the files left by an accepted
    [start_timer], before the end of the session by both clock readings,
    the session is back in the store as it was written and exactly one
    resumed timer is started for it, with the time left to its end.  The
    pending key consumed by the start stays consumed. *)
Theorem restart_resumes_started_session (L : pylib) (now now1 now2 : datetime)
    (fresh_key phone duration : string) (name : option string) (tid : string) (w w1 : world)
    (e : string) (d : Z) (r : string) :
  synced w ->
  start_timer L now fresh_key phone duration name (Some tid) w = (Ok (TimerStarted e d r), w1) ->
  now1 < now + sec (d * 60) -> now2 < now + sec (d * 60) ->
  let w2 := startup_event now1 now2 (import_main w1) in
  (exists s, active_sessions w1 !! tid = Some s /\ active_sessions w2 !! tid = Some s /\
             s_end_time s = now + sec (d * 60) /\
             List.filter (is_timer_for tid) (events_since (import_main w1) w2)
             = [SpawnTimer phone d tid true (Some (now + sec (d * 60) - now2))]) /\
  pending_keys w2 !! tid = None.
Proof.
  intros Hsync Hstart H1 H2 w2. subst w2.
  destruct (start_timer_started_inv _ _ _ _ _ _ _ _ _ _ _ _ Hstart)
    as (name' & end_time & -> & Hname & Htid & Hend).
  destruct (start_timer_accepted L now fresh_key phone duration name' tid w end_time
              Hname Htid Hend) as (Hr & Ha & Hp & Hf & _).
  rewrite Hstart in Hr, Ha, Hp, Hf. simpl in Hr, Ha, Hp, Hf.
  injection Hr as _ Hd _. rewrite <- Hd in Hend, Ha.
  assert (Hend' : end_time = now + sec (d * 60)).
  { unfold add_minutes in Hend. destruct (bool_decide _); [|discriminate]. congruence. }
  pose proof (start_timer_synced L now fresh_key phone duration (Some name') (Some tid) w Hsync)
    as [Hpsync _].
  rewrite Hstart in Hpsync. simpl in Hpsync.
  set (w0 := import_main w1).
  assert (Hact0 : active_sessions w0 = ∅).
  { subst w0. unfold import_main, load_pending_keys. simpl.
    destruct (pending_keys_file w1); reflexivity. }
  assert (Hfile0 : sessions_file w0 = Some (active_sessions w1)).
  { subst w0. unfold import_main, load_pending_keys. simpl.
    destruct (pending_keys_file w1); simpl; exact Hf. }
  assert (Hpend0 : pending_keys w0 !! tid = None).
  { subst w0. unfold import_main, load_pending_keys. simpl.
    destruct Hpsync as [Hpf | [Hpf Hpe]]; rewrite Hpf; simpl.
    - rewrite Hp. apply lookup_delete_eq.
    - apply lookup_empty. }
  set (s := Session name' phone tid d now end_time (Some fresh_key)).
  assert (Hs1 : active_sessions w1 !! tid = Some s) by (rewrite Ha; apply lookup_insert_eq).
  destruct (startup_event_shape now1 now2 w0 _ Hfile0 Hact0) as (pre & fl & Hw2 & _).
  set (kept := filter (fun entry : string * session => now1 < s_end_time (snd entry))
                 (active_sessions w1)) in *.
  assert (Hkept : kept !! tid = Some s).
  { apply map_lookup_filter_Some. split; [exact Hs1 | simpl; lia]. }
  split.
  - exists s. split; [exact Hs1|]. split; [rewrite Hw2; exact Hkept|].
    split; [exact Hend'|].
    rewrite (startup_event_events now1 now2 w0 _ _ Hfile0 Hact0) by reflexivity.
    fold kept. rewrite (restore_events_one now2 tid s);
      [subst s; simpl; rewrite Hend'; reflexivity
      | apply NoDup_fst_map_to_list | apply elem_of_map_to_list; exact Hkept | simpl; lia].
  - rewrite Hw2. simpl. exact Hpend0.
Qed.

Lemma restart_resumes_started_session_witness :
  let w2 := startup_event (sec 1500) (sec 1500) (import_main world_T1_running) in
  (exists s, active_sessions world_T1_running !! "T1" = Some s /\
             active_sessions w2 !! "T1" = Some s /\
             s_end_time s = sec 1000 + sec (15 * 60) /\
             List.filter (is_timer_for "T1") (events_since (import_main world_T1_running) w2)
             = [SpawnTimer "9876543210" 15 "T1" true
                  (Some (sec 1000 + sec (15 * 60) - sec 1500))]) /\
  pending_keys w2 !! "T1" = None.
Proof.
  apply (restart_resumes_started_session sample_lib (sec 1000) (sec 1500) (sec 1500) "rk"
           "9876543210" "15" (Some "Asha") "T1" world_T1_issued world_T1_running
           "1900000000" 15 "rk").
  - split; [left; vm_compute; reflexivity | right; split; reflexivity].
  - vm_compute. reflexivity.
  - vm_compute. reflexivity.
  - vm_compute. reflexivity.
Defined.

(** ** The ledger *)

Lemma find_in_row_set_nth_pad q row c0 c i v :
  find_in_row q row c0 = Some c -> (c - c0 < i)%nat ->
  find_in_row q (set_nth_pad row i v) c0 = Some c.
Proof.
  revert c0 i. induction row as [|x row IH]; intros c0 i Hf Hi; simpl in Hf; [discriminate|].
  destruct i as [|i]; [lia|]. simpl.
  destruct (String.eqb x q); [exact Hf|].
  apply IH; [exact Hf|].
  assert (S c0 <= c)%nat; [|lia].
  clear -Hf. revert Hf. generalize (S c0). induction row as [|y row IH']; intros n Hf;
    simpl in Hf; [discriminate|].
  destruct (String.eqb y q); [injection Hf as <-; lia|]. specialize (IH' _ Hf). lia.
Qed.

Lemma lookup_set_nth_pad_eq row i v : set_nth_pad row i v !! i = Some v.
Proof.
  revert row. induction i as [|i IH]; intros [|x row]; simpl; try reflexivity; apply IH.
Qed.

Lemma lookup_set_nth_pad_ne row i j v :
  i <> j -> default "" (set_nth_pad row i v !! j) = default "" (row !! j).
Proof.
  revert row j. induction i as [|i IH]; intros [|x row] [|j] Hne; simpl;
    try reflexivity; try contradiction.
  - rewrite IH by congruence. reflexivity.
  - apply IH. congruence.
Qed.

Lemma find_from_alter q rows r0 r c i v :
  find_from q rows r0 = Some (r, c) -> (c - 1 < i)%nat ->
  (r0 <= r)%nat /\
  find_from q (alter (fun row => set_nth_pad row i v) (r - r0)%nat rows) r0 = Some (r, c) /\
  is_Some (rows !! (r - r0)%nat).
Proof.
  revert r0. induction rows as [|row rows IH]; intros r0 Hf Hc; simpl in Hf; [discriminate|].
  destruct (find_in_row q row 1) as [c'|] eqn:Hrow.
  - injection Hf as <- <-. rewrite Nat.sub_diag. simpl.
    rewrite (find_in_row_set_nth_pad q row 1 c' i v Hrow Hc). eauto.
  - destruct (IH (S r0) Hf Hc) as (Hle & Hfind & Hsome).
    replace (r - r0)%nat with (S (r - S r0)) by lia. simpl. rewrite Hrow.
    split; [lia|]. split; [exact Hfind | exact Hsome].
Qed.

#[local] Arguments set_nth_pad : simpl never.

(** X9.  The status written by [update_entry_status] is not the one read
    by [get_entry_status].  When the id stands left of column 7 in its row
    (column 4 in the rows the program appends), the update puts the status
    in column 7 of that row, and [get_entry_status] answers after the
    update what it answered before: the text of column 5. *)
Theorem written_status_is_not_read_back (rows : worksheet) (tid st : string) (r c : nat)
    (w : world) :
  sheet w = Sheet rows ->
  find tid rows = Some (r, c) ->
  (c < 7)%nat ->
  let w1 := snd (update_entry_status (JStr tid) st w) in
  fst (update_entry_status (JStr tid) st w) = Ok true /\
  sheet w1 = Sheet (update_cell rows r 7 st) /\
  cell_value (update_cell rows r 7 st) r 7 = st /\
  fst (get_entry_status (JStr tid) w1) = Ok (Some (cell_value rows r 5)) /\
  fst (get_entry_status (JStr tid) w) = Ok (Some (cell_value rows r 5)).
Proof.
  intros Hsheet Hfind Hc w1. subst w1.
  unfold find in Hfind.
  destruct (find_from_alter tid rows 1 r c 6 st Hfind) as (Hr & Hfind' & [row Hrow]); [lia|].
  unfold update_entry_status, get_entry_status. simpl. rewrite Hsheet.
  unfold find. rewrite Hfind. simpl.
  unfold update_cell. simpl. rewrite Hfind'. simpl.
  repeat split.
  - unfold cell_value, worksheet in *. rewrite list_lookup_alter_eq, Hrow. simpl.
    rewrite lookup_set_nth_pad_eq. reflexivity.
  - unfold cell_value, worksheet in *. rewrite list_lookup_alter_eq, Hrow. simpl.
    rewrite (lookup_set_nth_pad_ne row 6 4 st) by lia. reflexivity.
Qed.

Lemma written_status_is_not_read_back_witness :
  fst (get_entry_status (JStr "T1") (snd (update_entry_status (JStr "T1") "In" world_T1)))
  = Ok (Some "50").
Proof.
  destruct (written_status_is_not_read_back sheet_T1 "T1" "In" 2 4 world_T1)
    as (_ & _ & _ & H & _); [reflexivity | reflexivity | lia |].
  exact H.
Defined.

(** ** The reporting task, turn after turn *)

(** X10.  The report is anchored to the recorded time.  When the ISO text
    of [new_now] is read back as [new_now], the turn after a report sent at
    [new_now] waits until one hour after [new_now], and so does the first
    turn of a process restarted on the same files. *)
Theorem hourly_report_anchors_next_turn (L : pylib) (S : Settings) (now new_now now' : datetime)
    (today date : string) (w w1 : world) (wait count total : Z) :
  fromisoformat L (isoformat L new_now) = Some new_now ->
  isoformat L new_now <> "" ->
  0 <= new_now + sec 3600 <= DATETIME_MAX ->
  hourly_wait L now w = Ok (wait, w1) ->
  fst (get_stats_for_today L today w) = Ok (count, total) ->
  let w' := hourly_stats_turn L S now new_now today date w in
  hourly_wait L now' w' = Ok (new_now + sec 3600 - now', w') /\
  hourly_wait L now' (import_main w') = Ok (new_now + sec 3600 - now', import_main w').
Proof.
  intros Hiso Hne Hrange Hwait Hstats w'.
  destruct (hourly_wait_frame _ _ _ _ _ Hwait) as (Hsh & _ & _).
  destruct (hourly_stats_turn_report L S now new_now today date w w1 wait count total Hwait)
    as [_ Hst].
  { rewrite <- Hstats. apply get_stats_for_today_sheet. exact Hsh. }
  fold w' in Hst.
  assert (Hgen : forall w2, state_file w2 = Some (Some (isoformat L new_now)) ->
                            hourly_wait L now' w2 = Ok (new_now + sec 3600 - now', w2)).
  { intros w2 H2. unfold hourly_wait, load_server_state. rewrite H2.
    destruct (String.eqb_spec (isoformat L new_now) ""); [contradiction|].
    rewrite Hiso. unfold add_minutes.
    replace (new_now + sec (60 * 60)) with (new_now + sec 3600) by reflexivity.
    rewrite bool_decide_eq_true_2 by exact Hrange. reflexivity. }
  split; [apply Hgen; exact Hst|]. apply Hgen.
  unfold import_main, load_pending_keys. simpl.
  destruct (pending_keys_file w'); simpl; exact Hst.
Qed.

Lemma hourly_report_anchors_next_turn_witness :
  hourly_wait sample_lib (sec 5000)
    (hourly_stats_turn sample_lib sample_settings (sec 4000) (sec 4601) "2025-01-01" "2025-01-01"
       world_reported)
  = Ok (sec 4601 + sec 3600 - sec 5000,
        hourly_stats_turn sample_lib sample_settings (sec 4000) (sec 4601) "2025-01-01" "2025-01-01"
          world_reported).
Proof.
  refine (proj1 (hourly_report_anchors_next_turn sample_lib sample_settings (sec 4000)
                   (sec 4601) (sec 5000) "2025-01-01" "2025-01-01" world_reported world_reported
                   (sec 600) 1 50 _ _ _ _ _));
    [vm_compute; reflexivity | discriminate | vm_compute; split; discriminate
    | vm_compute; reflexivity | vm_compute; reflexivity].
Defined.

Lemma hourly_wait_raise_again L now now' w w' :
  hourly_wait L now w = Raise -> state_file w' = state_file w ->
  hourly_wait L now' w' = Raise.
Proof.
  unfold hourly_wait, load_server_state. intros H ->.
  destruct (state_file w) as [[s|]|]; try discriminate.
  destruct (String.eqb s ""); [discriminate|].
  destruct (fromisoformat L s) as [t|]; [|reflexivity].
  destruct (add_minutes t 60); [discriminate | reflexivity].
Qed.

(** X11.  A recorded time that cannot be read stops the reports for good:
    the task keeps running, but every turn fails the same way, sleeps 60
    seconds and leaves the record as it is. *)
Theorem unreadable_timestamp_blocks_reports (L : pylib) (S : Settings) (now : datetime)
    (clock : list (datetime * datetime * string * string)) (w : world) :
  hourly_wait L now w = Raise ->
  let w' := hourly_stats_task L S clock w in
  events_since w w' = repeat (Sleep (sec 60)) (List.length clock) /\
  state_file w' = state_file w.
Proof.
  intros Hraise w'. subst w'.
  assert (Hgen : forall w0, state_file w0 = state_file w ->
            trace (hourly_stats_task L S clock w0)
            = trace w0 ++ repeat (Sleep (sec 60)) (List.length clock) /\
            state_file (hourly_stats_task L S clock w0) = state_file w).
  { induction clock as [|[[[n1 n2] td] dt] clock IH]; intros w0 Hst; simpl.
    - rewrite app_nil_r. auto.
    - unfold hourly_stats_turn.
      rewrite (hourly_wait_raise_again L now n1 w w0 Hraise Hst).
      destruct (IH (emit (Sleep (sec 60)) w0) Hst) as [Ht Hs].
      rewrite Ht. simpl. rewrite <- app_assoc. auto. }
  destruct (Hgen w eq_refl) as [Ht Hs].
  split; [apply events_since_app; exact Ht | exact Hs].
Qed.

Lemma unreadable_timestamp_blocks_reports_witness :
  events_since (set_state_file (Some (Some "yesterday")) empty_world)
    (hourly_stats_task sample_lib sample_settings
       [(sec 10, sec 11, "2025-01-01", "2025-01-01"); (sec 71, sec 72, "2025-01-01", "2025-01-01")]
       (set_state_file (Some (Some "yesterday")) empty_world))
  = [Sleep (sec 60); Sleep (sec 60)].
Proof.
  apply (unreadable_timestamp_blocks_reports sample_lib sample_settings 0
           [(sec 10, sec 11, "2025-01-01", "2025-01-01"); (sec 71, sec 72, "2025-01-01", "2025-01-01")]
           (set_state_file (Some (Some "yesterday")) empty_world)).
  reflexivity.
Defined.

(** ** Aggregates *)






(** ** Addressing a message *)

Lemma remove_char_not_in c s : ~ In c (list_ascii_of_string (remove_char c s)).
Proof.
  induction s as [|d s IH]; simpl; [tauto|].
  destruct (Ascii.eqb_spec d c); [exact IH|].
  simpl. intros [H|H]; [congruence | exact (IH H)].
Qed.

Lemma remove_char_subset c d s :
  In d (list_ascii_of_string (remove_char c s)) -> In d (list_ascii_of_string s).
Proof.
  induction s as [|x s IH]; simpl; [tauto|].
  destruct (Ascii.eqb x c); simpl; [auto | intros [H|H]; auto].
Qed.

(** X13.  The number a message is addressed to holds no ["+"], no space
    and no ["-"], and never has ten characters: a number of ten characters
    gets the country code 91 in front. *)
Theorem clean_number_shape (phone_number : string) :
  let p := clean_number phone_number in
  ~ In "+"%char (list_ascii_of_string p) /\
  ~ In " "%char (list_ascii_of_string p) /\
  ~ In "-"%char (list_ascii_of_string p) /\
  String.length p <> 10%nat.
Proof.
  unfold clean_number.
  set (q := remove_char "-" (remove_char " " (remove_char "+" (strip phone_number)))).
  assert (Hplus : ~ In "+"%char (list_ascii_of_string q)).
  { intros H. subst q. apply remove_char_subset, remove_char_subset in H.
    exact (remove_char_not_in _ _ H). }
  assert (Hspace : ~ In " "%char (list_ascii_of_string q)).
  { intros H. subst q. apply remove_char_subset in H. exact (remove_char_not_in _ _ H). }
  assert (Hminus : ~ In "-"%char (list_ascii_of_string q)) by apply remove_char_not_in.
  destruct (String.length q =? 10)%nat eqn:Hlen.
  - apply Nat.eqb_eq in Hlen.
    change ("91" ++ q)%string with (String "9" (String "1" q)).
    cbn [list_ascii_of_string String.length].
    repeat split; try (intros [H|[H|H]]; [discriminate | discriminate | auto]). lia.
  - apply Nat.eqb_neq in Hlen. auto.
Qed.

(** ** Submitting an entry *)

(** X14.  [submit_entry] starts the processing task at most once, and only
    when it answers "Processing started"; any other outcome leaves the
    state as it was.  A cash payment is never refused and gets an id made
    of the clock and the number drawn; an online payment without an id is
    refused. *)
Theorem submit_entry_spawns_once (S : Settings) (timestamp_part : string) (random_part : Z)
    (name phone : string) (transaction_id : option string) (plan_selection payment_mode : string)
    (w : world) :
  let r := submit_entry S timestamp_part random_part name phone transaction_id plan_selection
             payment_mode w in
  (fst r = Ok SubmitStarted ->
   exists tid,
     events_since w (snd r) = [SpawnProcessEntry name phone tid plan_selection payment_mode] /\
     (payment_mode = "online" -> transaction_id = Some tid /\ tid <> "") /\
     (payment_mode <> "online" ->
      tid = ("CASH-" ++ timestamp_part ++ "-" ++ str_of_Z random_part)%string)) /\
  (fst r <> Ok SubmitStarted -> snd r = w) /\
  (payment_mode <> "online" -> fst r = Ok SubmitStarted) /\
  (payment_mode = "online" -> truthy transaction_id = false ->
   fst r = Ok (SubmitRejected "Transaction ID is required for Online payments")).
Proof.
  intros r. subst r.
  set (P := fun r : py submit_response * world =>
    (fst r = Ok SubmitStarted ->
     exists tid,
       events_since w (snd r) = [SpawnProcessEntry name phone tid plan_selection payment_mode] /\
       (payment_mode = "online" -> transaction_id = Some tid /\ tid <> "") /\
       (payment_mode <> "online" ->
        tid = ("CASH-" ++ timestamp_part ++ "-" ++ str_of_Z random_part)%string)) /\
    (fst r <> Ok SubmitStarted -> snd r = w) /\
    (payment_mode <> "online" -> fst r = Ok SubmitStarted) /\
    (payment_mode = "online" -> truthy transaction_id = false ->
     fst r = Ok (SubmitRejected "Transaction ID is required for Online payments"))).
  change (P (submit_entry S timestamp_part random_part name phone transaction_id
               plan_selection payment_mode w)).
  assert (Hstart : forall tid,
             (payment_mode = "online" -> transaction_id = Some tid /\ tid <> "") ->
             (payment_mode <> "online" ->
              tid = ("CASH-" ++ timestamp_part ++ "-" ++ str_of_Z random_part)%string) ->
             P (Ok SubmitStarted,
                emit (SpawnProcessEntry name phone tid plan_selection payment_mode) w)).
  { intros tid H1 H2. unfold P. cbn [fst snd]. split; [|split; [|split]].
    - intros _. exists tid. rewrite events_since_emit. auto.
    - intros H. contradiction.
    - reflexivity.
    - intros Hm Ht. destruct (H1 Hm) as [-> Hne]. apply truthy_Some in Hne. congruence. }
  assert (Hsame : forall res,
             res <> Ok SubmitStarted -> payment_mode = "online" ->
             (truthy transaction_id = false ->
              res = Ok (SubmitRejected "Transaction ID is required for Online payments")) ->
             P (res, w)).
  { intros res Hres Hm Hreq. unfold P. cbn [fst snd]. split; [|split; [|split]].
    - intros H. contradiction.
    - reflexivity.
    - intros H. contradiction.
    - intros _. exact Hreq. }
  unfold submit_entry.
  destruct (String.eqb_spec payment_mode "online") as [Hm|Hm].
  - destruct transaction_id as [tid|];
      [|apply Hsame; [discriminate | exact Hm | reflexivity]].
    destruct (truthy (Some tid)) eqn:Ht; cbn [negb];
      [|apply Hsame; [discriminate | exact Hm | reflexivity]].
    assert (Hok : P (Ok SubmitStarted,
                     emit (SpawnProcessEntry name phone tid plan_selection payment_mode) w)).
    { apply Hstart; [intros _; split; [reflexivity | apply truthy_Some; exact Ht]|].
      intros H. contradiction. }
    destruct (negb (String.eqb (SHEET_URL S) "")); [|exact Hok].
    destruct (check_transaction_exists tid w) as [[]|];
      [apply Hsame; [discriminate | exact Hm | discriminate]
      | exact Hok
      | apply Hsame; [discriminate | exact Hm | discriminate]].
  - apply Hstart; [intros H; contradiction | intros _; reflexivity].
Qed.

Lemma submit_entry_spawns_once_witness :
  events_since empty_world
    (snd (submit_entry sample_settings "20250101-100000" 123 "Asha" "9876543210" None
            "premium_50" "cash" empty_world))
  = [SpawnProcessEntry "Asha" "9876543210" "CASH-20250101-100000-123" "premium_50" "cash"].
Proof.
  destruct (submit_entry_spawns_once sample_settings "20250101-100000" 123 "Asha" "9876543210"
              None "premium_50" "cash" empty_world) as (Hstart & _).
  destruct (Hstart eq_refl) as (tid & Hev & _ & Hcash).
  rewrite (Hcash ltac:(discriminate)) in Hev. exact Hev.
Defined.

Lemma existsb_app_r {A} (f : A -> bool) (l1 l2 : list A) :
  existsb f l2 = true -> existsb f (l1 ++ l2) = true.
Proof. intros H. rewrite existsb_app, H. apply orb_true_r. Qed.

Lemma trim_empty_app_last (cells : list string) (c : string) :
  c <> "" -> trim_empty (cells ++ [c]) = cells ++ [c].
Proof.
  intros Hc. induction cells as [|x cells IH]; simpl.
  - destruct (String.eqb_spec c ""); [contradiction | reflexivity].
  - rewrite IH. destruct (cells ++ [c]) eqn:E; [|reflexivity].
    destruct cells; discriminate.
Qed.

(** X15.  An id that has been written to the ledger cannot be submitted
    again: once [process_entry_task] has appended the row of an online
    payment, a second online submission with the same id is refused as a
    duplicate and starts nothing. *)
Theorem recorded_id_is_refused (L : pylib) (key : bytes) (S : Settings) (rand : Z) (iv : bytes)
    (ip : string) (qr : string -> py string) (ts name phone tid plan mode : string)
    (ts' : string) (rp : Z) (name' phone' plan' : string) (w : world) (rows : worksheet)
    (token path : string) :
  sheet w = Sheet rows ->
  SHEET_URL S <> "" ->
  tid <> "" ->
  (let '(amount, duration, plan_name) := parse_plan plan in
   encrypt L key iv
     (claims_of tid name (remove_char "+" (remove_char "-" (remove_char " " phone)))
        duration amount plan_name (secure_key_of rand)) = Ok token) ->
  qr ("http://" ++ ip ++ ":" ++ str_of_Z 5000 ++ "/verify?token=" ++ token)%string = Ok path ->
  let w1 := process_entry_task L key S rand iv ip qr ts name phone tid plan mode w in
  submit_entry S ts' rp name' phone' (Some tid) plan' "online" w1
  = (Ok (SubmitRejected "Transaction ID already exists"), w1).
Proof.
  intros Hsheet Hurl Htid Henc Hqr w1.
  assert (Hrows : exists row, sheet w1 = Sheet (rows ++ [row]) /\ row !! 3%nat = Some tid).
  { subst w1. unfold process_entry_task.
    destruct (parse_plan plan) as [[amount duration] plan_name].
    fold (secure_key_of rand). rewrite Henc. cbv zeta. rewrite Hqr.
    destruct (String.eqb_spec (SHEET_URL S) ""); [contradiction|]. cbn [negb].
    unfold append_data. cbn [sheet emit save_pending_keys set_pending_keys set_pending_keys_file].
    rewrite Hsheet. eexists. split; reflexivity. }
  destruct Hrows as (row & Hs1 & Hrow).
  unfold submit_entry. rewrite String.eqb_refl.
  assert (Ht : truthy (Some tid) = true) by (apply truthy_Some; exact Htid).
  rewrite Ht. cbn [negb].
  destruct (String.eqb_spec (SHEET_URL S) ""); [contradiction|]. cbn [negb].
  unfold check_transaction_exists, col_values. rewrite Hs1.
  change (4 - 1)%nat with 3%nat. rewrite map_app. cbn [map]. rewrite Hrow. cbn [default from_option id].
  rewrite (trim_empty_app_last _ tid Htid).
  rewrite existsb_app_r; [reflexivity|].
  simpl. rewrite String.eqb_refl. reflexivity.
Qed.

Lemma recorded_id_is_refused_witness :
  submit_entry sample_settings "20250101-100600" 7 "Ravi" "9123456780" (Some "T1") "standard_40"
    "online" world_T1_issued
  = (Ok (SubmitRejected "Transaction ID already exists"), world_T1_issued).
Proof.
  apply (recorded_id_is_refused sample_lib sample_key sample_settings 42 [] "10.0.0.2" sample_qr
           "2025-01-01 10:00:00" "Asha" "+98765 43210" "T1" "premium_50" "online"
           "20250101-100600" 7 "Ravi" "9123456780" "standard_40"
           (set_sheet (Sheet (take 1 sheet_T1)) empty_world) (take 1 sheet_T1)
           (sample_token claims_T1) "generated_qrs/qr.png");
    [reflexivity | discriminate | discriminate | vm_compute; reflexivity | reflexivity].
Defined.

(** ** The list of sessions *)

(** X16.  [get_sessions] lists every stored session once.  The seconds
    left are never negative and never more than the time to the end; a
    session is shown as ended exactly when its end is not after the clock,
    and as in its warning phase exactly when it ends within the buffer. *)
Theorem get_sessions_views (S : Settings) (now : datetime) (w : world) :
  List.length (get_sessions S now w) = size (active_sessions w) /\
  (forall tid s, active_sessions w !! tid = Some s ->
                 In (session_view_of S now s) (get_sessions S now w)) /\
  (forall s, let v := session_view_of S now s in
             0 <= v_remaining_seconds v /\
             sec (v_remaining_seconds v) <= Z.max 0 (s_end_time s - now) /\
             (v_status v = "Ended" <-> s_end_time s <= now) /\
             (v_status v = "Warning" <->
              now < s_end_time s <= now + sec (WARNING_BUFFER_MINUTES S * 60)) /\
             (v_status v = "Active" <->
              now + sec (WARNING_BUFFER_MINUTES S * 60) < s_end_time s /\ now < s_end_time s)).
Proof.
  split; [|split].
  - unfold get_sessions. rewrite length_map. apply length_map_to_list.
  - intros tid s Hs. unfold get_sessions. apply in_map_iff. exists (tid, s).
    split; [reflexivity|]. apply list_elem_of_In, elem_of_map_to_list. exact Hs.
  - intros s v. subst v. unfold session_view_of.
    destruct (s_end_time s - now <=? 0)%Z eqn:H1.
    + apply Z.leb_le in H1. cbn [v_remaining_seconds v_status].
      replace (0 ÷ 1000000) with 0 by reflexivity. unfold sec.
      repeat split; try lia; try discriminate; intros; try reflexivity; lia.
    + apply Z.leb_gt in H1.
      assert (Hq : 0 <= (s_end_time s - now) ÷ 1000000) by (apply Z.quot_pos; lia).
      assert (Hq' : sec ((s_end_time s - now) ÷ 1000000) <= s_end_time s - now).
      { unfold sec. rewrite Z.mul_comm. apply Z.mul_quot_le; lia. }
      destruct (s_end_time s - now <=? sec (WARNING_BUFFER_MINUTES S * 60))%Z eqn:H2;
        simpl.
      * apply Z.leb_le in H2.
        repeat split; try lia; try discriminate; intros; try reflexivity; lia.
      * apply Z.leb_gt in H2.
        repeat split; try lia; try discriminate; intros; try reflexivity; lia.
Qed.

Lemma get_sessions_views_witness :
  In (session_view_of sample_settings (sec 4800) session_T2)
     (get_sessions sample_settings (sec 4800) (startup_event (sec 4500) (sec 4500) world_restart)).
Proof.
  destruct (get_sessions_views sample_settings (sec 4800)
              (startup_event (sec 4500) (sec 4500) world_restart)) as (_ & Hin & _).
  apply (Hin "T2" session_T2). vm_compute. reflexivity.
Defined.

(** ** Timers at the edges *)

(** X17.  A fresh timer whose duration is not above the warning buffer
    sends no warning: after the start notice it sleeps once, for the whole
    duration, and sends the end notice (at once when the duration is not
    positive). *)
Theorem timer_without_warning_phase (S : Settings) (phone : string) (D : Z) (tid : string)
    (rs : option Z) (w : world) :
  D <= WARNING_BUFFER_MINUTES S ->
  let evs := events_since w (session_timer_task S phone D tid false rs w) in
  notices 0 evs = [(MsgStarted D, 0); (MsgEnded D, Z.max 0 (sec (D * 60)))] /\
  sleeps evs = (if (0 <? D)%Z then [sec (D * 60)] else []).
Proof.
  intros HD evs. subst evs. unfold session_timer_task.
  assert (Hn : forall (b : bool) t, notices t (if b then [WriteSessions] else []) = [])
    by (intros [] ?; reflexivity).
  assert (Hs : forall b : bool, sleeps (if b then [WriteSessions] else []) = [])
    by (intros []; reflexivity).
  assert (Hw : trace (session_timer_wait S phone D false rs w)
               = trace w ++ SendMessage (clean_number phone) (MsgStarted D)
                              (delivers w (clean_number phone) (MsgStarted D))
                            :: (if (0 <? D)%Z then [Sleep (sec (D * 60))] else [])).
  { unfold session_timer_wait. simpl.
    assert (H : (0 <? sec ((D - WARNING_BUFFER_MINUTES S) * 60))%Z = false)
      by (apply Z.ltb_ge; unfold sec; lia).
    rewrite H.
    assert (H' : (0 <? sec (D * 60))%Z = (0 <? D)%Z).
    { unfold sec. destruct (Z.ltb_spec 0 D); [apply Z.ltb_lt | apply Z.ltb_ge]; lia. }
    rewrite H'. destruct (0 <? D)%Z; simpl; rewrite <- ?app_assoc; reflexivity. }
  erewrite events_since_app;
    [|rewrite session_timer_cleanup_trace, Hw, <- app_assoc; reflexivity].
  destruct (Z.ltb_spec 0 D); simpl.
  - rewrite Hn, Hs. split; [|reflexivity].
    repeat f_equal; unfold sec; lia.
  - rewrite Hn, Hs. split; [|reflexivity].
    repeat f_equal; unfold sec; lia.
Qed.

Lemma timer_without_warning_phase_witness :
  notices 0 (events_since empty_world
               (session_timer_task sample_settings "9876543210" 3 "T1" false None empty_world))
  = [(MsgStarted 3, 0); (MsgEnded 3, Z.max 0 (sec (3 * 60)))].
Proof.
  apply (timer_without_warning_phase sample_settings "9876543210" 3 "T1" None empty_world).
  vm_compute. discriminate.
Defined.

(** X18.  Starting a session again for an id that has one replaces the
    session and starts a second timer, and the first timer is not told:
    when it ends it removes the session stored under the id, which is the
    new one, whatever time that one had left. *)
Theorem first_timer_ends_restarted_session (L : pylib) (now1 now2 : datetime)
    (key1 key2 phone1 phone2 duration1 duration2 : string) (name1 name2 : option string)
    (tid : string) (w w1 w2 : world) (e1 e2 : string) (d1 d2 : Z) (r1 r2 : string) :
  start_timer L now1 key1 phone1 duration1 name1 (Some tid) w = (Ok (TimerStarted e1 d1 r1), w1) ->
  start_timer L now2 key2 phone2 duration2 name2 (Some tid) w1 = (Ok (TimerStarted e2 d2 r2), w2) ->
  (exists s, active_sessions w2 !! tid = Some s /\ s_start_time s = now2 /\
             s_end_time s = now2 + sec (d2 * 60) /\ s_restore_key s = Some key2) /\
  List.filter (is_timer_for tid) (events_since w w2)
  = [SpawnTimer phone1 d1 tid false None; SpawnTimer phone2 d2 tid false None] /\
  active_sessions (session_timer_cleanup phone1 d1 tid w2) !! tid = None.
Proof.
  intros Hs1 Hs2.
  destruct (start_timer_started_inv _ _ _ _ _ _ _ _ _ _ _ _ Hs1)
    as (n1 & end1 & -> & Hn1 & Htid & Hend1).
  destruct (start_timer_started_inv _ _ _ _ _ _ _ _ _ _ _ _ Hs2)
    as (n2 & end2 & -> & Hn2 & _ & Hend2).
  destruct (start_timer_accepted L now1 key1 phone1 duration1 n1 tid w end1 Hn1 Htid Hend1)
    as (Hr1 & _ & _ & _ & Ht1).
  destruct (start_timer_accepted L now2 key2 phone2 duration2 n2 tid w1 end2 Hn2 Htid Hend2)
    as (Hr2 & Ha2 & _ & _ & Ht2).
  rewrite Hs1 in Hr1, Ht1. rewrite Hs2 in Hr2, Ha2, Ht2. cbn [fst snd] in *.
  injection Hr1 as _ Hd1 _. injection Hr2 as _ Hd2 _.
  rewrite <- Hd1 in Ht1. rewrite <- Hd2 in Ht2, Ha2, Hend2.
  split; [|split].
  - eexists. split; [rewrite Ha2; apply lookup_insert_eq|]. simpl.
    split; [reflexivity|]. split; [|reflexivity].
    unfold add_minutes in Hend2. destruct (bool_decide _); [|discriminate]. congruence.
  - erewrite events_since_app; [|rewrite Ht2, Ht1, <- app_assoc; reflexivity].
    destruct (bool_decide _), (bool_decide _); simpl; rewrite String.eqb_refl; reflexivity.
  - unfold session_timer_cleanup. simpl. rewrite Ha2, lookup_insert_eq.
    rewrite bool_decide_eq_true_2 by eauto. simpl. apply lookup_delete_eq.
Qed.

Lemma first_timer_ends_restarted_session_witness :
  active_sessions
    (session_timer_cleanup "9876543210" 15 "T1"
       (snd (start_timer sample_lib (sec 1600) "rk2" "9876543210" "15" (Some "Asha") (Some "T1")
               world_T1_running))) !! "T1" = None.
Proof.
  refine (proj2 (proj2 (first_timer_ends_restarted_session sample_lib (sec 1000) (sec 1600)
            "rk" "rk2" "9876543210" "9876543210" "15" "15" (Some "Asha") (Some "Asha") "T1"
            world_T1_issued world_T1_running
            (snd (start_timer sample_lib (sec 1600) "rk2" "9876543210" "15" (Some "Asha")
                    (Some "T1") world_T1_running))
            "1900000000" "2500000000" 15 15 "rk" "rk2" _ _)));
    vm_compute; reflexivity.
Defined.

(** X19.  A session that ends between the two clock readings of
    [startup_event] is neither dropped nor resumed: it stays in the store
    and no timer is started for it. *)
Theorem session_ending_between_clock_readings (now1 now2 : datetime) (w : world)
    (data : gmap string session) (tid : string) (s : session) :
  sessions_file w = Some data ->
  active_sessions w = ∅ ->
  data !! tid = Some s ->
  now1 < s_end_time s <= now2 ->
  let w' := startup_event now1 now2 w in
  active_sessions w' !! tid = Some s /\
  List.filter (is_timer_for tid) (events_since w w') = [].
Proof.
  intros Hfile Hempty Hs Hend w'. subst w'.
  set (kept := filter (fun entry : string * session => now1 < s_end_time (snd entry)) data).
  assert (Hkept : kept !! tid = Some s).
  { apply map_lookup_filter_Some. split; [exact Hs | simpl; lia]. }
  split.
  - destruct (startup_event_shape now1 now2 w data Hfile Hempty) as (pre & fl & -> & _).
    exact Hkept.
  - rewrite (startup_event_events now1 now2 w data _ Hfile Hempty) by reflexivity.
    fold kept.
    assert (Hgen : forall l : list (string * session),
               (forall t s', (t, s') ∈ l -> t = tid -> s' = s) ->
               List.filter (is_timer_for tid) (flat_map (restore_events now2) l) = []).
    { induction l as [|[t s'] l IH]; intros Hl; simpl; [reflexivity|].
      rewrite List.filter_app, IH, app_nil_r
        by (intros; eapply Hl; [apply list_elem_of_further|]; eassumption).
      destruct (s_end_time s' >? now2)%Z eqn:Hgt; simpl; [|reflexivity].
      destruct (String.eqb_spec t tid); [|reflexivity].
      rewrite (Hl t s' (list_elem_of_here _ _) e) in Hgt. apply Z.gtb_lt in Hgt. lia. }
    apply Hgen. intros t s' Hin ->. apply elem_of_map_to_list in Hin. congruence.
Qed.

Lemma session_ending_between_clock_readings_witness :
  active_sessions (startup_event (sec 4999) (sec 5000) world_restart) !! "T2" = Some session_T2 /\
  List.filter (is_timer_for "T2")
    (events_since world_restart (startup_event (sec 4999) (sec 5000) world_restart)) = [].
Proof.
  apply (session_ending_between_clock_readings (sec 4999) (sec 5000) world_restart
           sessions_on_disk "T2" session_T2);
    [reflexivity | reflexivity | vm_compute; reflexivity
    | vm_compute; split; [reflexivity | discriminate]].
Defined.

(** ** More on the gate *)

(** X20.  A token with the right key but without a phone number is written
    to the ledger as admitted and then answered as a processing failure:
    the welcome message cannot be addressed, and the write is not undone. *)
Theorem admission_without_phone_is_recorded (L : pylib) (key : bytes) (now : datetime)
    (token : string) (w : world) (data : list (string * json)) (tid k : string)
    (rows : worksheet) (r c : nat) :
  decrypt L key token = Ok (JObj data) ->
  dict_get data "transaction_id" JNull = JStr tid ->
  active_sessions w !! tid = None ->
  pending_keys w !! tid = Some k ->
  dict_get data "secure_key" JNull = JStr k ->
  (forall p, dict_get data "phone" JNull <> JStr p) ->
  sheet w = Sheet rows ->
  find tid rows = Some (r, c) ->
  let w' := snd (verify_entry L key now token w) in
  fst (verify_entry L key now token w) = ScanError "Verification Processing Failed" /\
  sheet w' = Sheet (update_cell rows r 7 "In") /\
  events_since w w' = [UpdateEntryStatus (JStr tid) "In"].
Proof.
  intros Hdec Htid Hact Hpend Hkey Hphone Hsheet Hfind w'. subst w'.
  unfold verify_entry. rewrite Hdec, Htid, Hkey. simpl.
  rewrite Hact, Hpend. rewrite bool_decide_eq_false_2 by (intros [? ?]; discriminate).
  rewrite String.eqb_refl. simpl.
  unfold update_entry_status. simpl. rewrite Hsheet, Hfind.
  destruct (dict_get data "phone" JNull) eqn:Hp; simpl;
    try (split; [reflexivity|]; split; [reflexivity | apply events_since_app; reflexivity]).
  exfalso. apply (Hphone s). reflexivity.
Qed.

Lemma admission_without_phone_is_recorded_witness :
  let token := sample_token (JObj [("transaction_id", JStr "T1"); ("name", JStr "Asha");
                                   ("secure_key", JStr "00000000000042")]) in
  fst (verify_entry sample_lib sample_key (sec 1000) token world_T1)
  = ScanError "Verification Processing Failed" /\
  sheet (snd (verify_entry sample_lib sample_key (sec 1000) token world_T1))
  = Sheet (update_cell sheet_T1 2 7 "In").
Proof.
  intros token.
  destruct (admission_without_phone_is_recorded sample_lib sample_key (sec 1000) token world_T1
              [("transaction_id", JStr "T1"); ("name", JStr "Asha");
               ("secure_key", JStr "00000000000042")] "T1" "00000000000042" sheet_T1 2 4)
    as (H1 & H2 & _);
    [vm_compute; reflexivity | reflexivity | reflexivity | vm_compute; reflexivity | reflexivity
    | intros p; discriminate | reflexivity | reflexivity |].
  split; [exact H1 | exact H2].
Defined.

(** X21.  Whatever the token and the state, the gate answers with the
    restore offer, with the admission, or with one of its five fixed
    texts. *)
Theorem verify_entry_answers_are_fixed (L : pylib) (key : bytes) (now : datetime)
    (token : string) (w : world) :
  match fst (verify_entry L key now token w) with
  | ScanError message => In message gate_messages
  | ScanCheckRestore _ _ _ _ _ => True
  | ScanSuccess _ _ _ _ _ time => time = now
  end.
Proof.
  unfold verify_entry, gate_messages.
  destruct (decrypt L key token) as [[]|]; simpl; auto.
  destruct (py_in _ (active_sessions w)) as [[]|]; simpl; auto 6.
  destruct (py_index _ (pending_keys w)).
  - destruct (negb _); simpl; auto 6.
    destruct (update_entry_status _ "In" w) as [[b|] w1]; simpl; auto 6.
    destruct (send_message_json _ _ w1) as [[? ?]|]; simpl; auto 6.
  - destruct (get_entry_status _ w) as [[st|] w1]; simpl; auto 6.
    destruct (status_is_in st); simpl; auto 6.
Qed.

(** ** One transaction at a time *)

(** X22.  Work on one transaction id leaves the others alone: issuing a
    code, starting a session and running a timer to its end for [tid]
    change neither the pending key nor the session of any other id. *)
Theorem other_transactions_untouched (tid other : string) (w : world) :
  other <> tid ->
  (forall L key S rand iv ip qr ts name phone plan mode,
      let w' := process_entry_task L key S rand iv ip qr ts name phone tid plan mode w in
      pending_keys w' !! other = pending_keys w !! other /\
      active_sessions w' !! other = active_sessions w !! other) /\
  (forall L now fresh_key phone duration name,
      let w' := snd (start_timer L now fresh_key phone duration name (Some tid) w) in
      pending_keys w' !! other = pending_keys w !! other /\
      active_sessions w' !! other = active_sessions w !! other) /\
  (forall S phone D is_resume rs,
      let w' := session_timer_task S phone D tid is_resume rs w in
      pending_keys w' !! other = pending_keys w !! other /\
      active_sessions w' !! other = active_sessions w !! other).
Proof.
  intros Hne. split; [|split].
  - intros. subst w'.
    destruct (process_entry_task_frame L key S rand iv ip qr ts name phone tid plan mode w)
      as (-> & _ & -> & _).
    split; [apply lookup_insert_ne; congruence | reflexivity].
  - intros. subst w'. unfold start_timer.
    destruct name as [name'|]; [|auto].
    destruct (negb _ || negb _); [auto|].
    destruct (add_minutes _ _); [|auto].
    simpl. destruct (bool_decide _); simpl;
      rewrite alter_insert_eq, lookup_insert_ne by congruence;
      rewrite ?lookup_delete_ne by congruence; auto.
  - intros. subst w'. unfold session_timer_task.
    destruct (session_timer_wait_frame S phone D is_resume rs w) as (Ha & Hp & _).
    unfold session_timer_cleanup. simpl. rewrite Ha.
    destruct (bool_decide _); simpl; rewrite Hp, ?Ha, ?lookup_delete_ne by congruence; auto.
Qed.

Lemma other_transactions_untouched_witness :
  pending_keys
    (snd (start_timer sample_lib (sec 1000) "rk" "9123456780" "15" (Some "Ravi") (Some "T2")
            world_T1)) !! "T1"
  = pending_keys world_T1 !! "T1".
Proof.
  destruct (other_transactions_untouched "T2" "T1" world_T1) as (_ & Hstart & _);
    [discriminate|].
  exact (proj1 (Hstart sample_lib (sec 1000) "rk" "9123456780" "15" (Some "Ravi"))).
Defined.

(** X23.  Without a session and without a pending key the gate asks the
    ledger, and its answer depends on column 5 of the first row that holds
    the id: "already used" when that cell, trimmed and in lower case, is
    ["in"], "not found or expired" otherwise, also when the id is not in
    the sheet or the API fails.  Only a ledger that cannot be connected
    gives the processing failure.  Nothing is written. *)
Theorem verify_entry_without_pending_key (L : pylib) (key : bytes) (now : datetime)
    (token : string) (w : world) (data : list (string * json)) (tid : string) :
  decrypt L key token = Ok (JObj data) ->
  dict_get data "transaction_id" JNull = JStr tid ->
  active_sessions w !! tid = None ->
  pending_keys w !! tid = None ->
  let r := verify_entry L key now token w in
  let used := ScanError "Entry ALREADY processed/used." in
  let unknown := ScanError "Invalid QR Code: Transaction not found or expired." in
  snd r = emit (GetEntryStatus (JStr tid)) w /\
  match sheet w with
  | NoClient => fst r = ScanError "Verification Processing Failed"
  | ApiError => fst r = unknown
  | Sheet rows =>
      match find tid rows with
      | Some (row, _) =>
          (lower (strip (cell_value rows row 5)) = "in" -> fst r = used) /\
          (lower (strip (cell_value rows row 5)) <> "in" -> fst r = unknown)
      | None => fst r = unknown
      end
  end.
Proof.
  intros Hdec Htid Hact Hpend r used unknown. subst r.
  unfold verify_entry. rewrite Hdec, Htid. simpl.
  rewrite Hact, Hpend. rewrite bool_decide_eq_false_2 by (intros [? ?]; discriminate).
  unfold get_entry_status. cbn [sheet emit].
  destruct (sheet w) as [| |rows]; cbn [fst snd]; [split; reflexivity..|].
  destruct (find tid rows) as [[row c]|]; cbn [fst snd]; [|split; reflexivity].
  unfold status_is_in.
  set (s := cell_value rows row 5).
  destruct (String.eqb_spec (lower (strip s)) "in") as [Hin|Hin].
  - assert (Hne : String.eqb s "" = false).
    { destruct s; [discriminate Hin | reflexivity]. }
    rewrite Hne. cbn [negb andb fst snd].
    split; [reflexivity|]. split; [reflexivity | contradiction].
  - rewrite andb_false_r. cbn [fst snd].
    split; [reflexivity|]. split; [contradiction | reflexivity].
Qed.

Lemma verify_entry_without_pending_key_witness :
  verify_entry sample_lib sample_key (sec 1000) (sample_token claims_T1) world_status_in_E
  = (ScanError "Entry ALREADY processed/used.",
     emit (GetEntryStatus (JStr "T1")) world_status_in_E).
Proof.
  destruct (verify_entry_without_pending_key sample_lib sample_key (sec 1000)
              (sample_token claims_T1) world_status_in_E
              (match claims_T1 with JObj d => d | _ => [] end) "T1") as [Hw Hr];
    [vm_compute; reflexivity | reflexivity | reflexivity | reflexivity |].
  cbn [sheet world_status_in_E] in Hr.
  change (find "T1" [["2025-01-01 10:00:00"; "Asha"; "9876543210"; "T1"; " In "; "50"]])
    with (Some (1%nat, 4%nat)) in Hr.
  destruct Hr as [Hused _].
  rewrite <- Hw, <- (Hused eq_refl). apply surjective_pairing.
Defined.

(** ** The security key *)

Lemma string_of_uint_length d :
  String.length (NilEmpty.string_of_uint d) = Decimal.nb_digits d.
Proof. induction d; simpl; congruence. Qed.

Lemma string_of_uint_digits d :
  forallb is_digit (list_ascii_of_string (NilEmpty.string_of_uint d)) = true.
Proof. induction d; simpl; auto. Qed.

Lemma of_uint_acc_lower d acc :
  (Z.pos acc * 10 ^ Z.of_nat (Decimal.nb_digits d) <= Z.pos (Pos.of_uint_acc d acc))%Z.
Proof.
  revert acc. induction d; intros acc; cbn [Pos.of_uint_acc Decimal.nb_digits];
    [simpl; lia|..];
    (rewrite Nat2Z.inj_succ, Z.pow_succ_r by lia;
     etransitivity; [|apply IHd];
     assert (0 <= 10 ^ Z.of_nat (Decimal.nb_digits d))%Z by (apply Z.pow_nonneg; lia);
     nia).
Qed.

Lemma to_uint_normal p : Pos.to_uint p = Decimal.unorm (Pos.to_uint p).
Proof.
  rewrite <- (DecimalPos.Unsigned.to_of (Pos.to_uint p)).
  rewrite DecimalPos.Unsigned.of_to. reflexivity.
Qed.

Lemma to_uint_digits_bound p k :
  (Z.pos p < 10 ^ Z.of_nat k)%Z -> (Decimal.nb_digits (Pos.to_uint p) <= k)%nat.
Proof.
  intros Hp.
  pose proof (DecimalPos.Unsigned.of_to p) as Hof.
  pose proof (to_uint_normal p) as Hn.
  pose proof (DecimalPos.Unsigned.to_uint_nonzero p) as Hz.
  assert (Hlow : forall d acc, Pos.of_uint_acc d acc = p -> (Decimal.nb_digits d < k)%nat).
  { intros d acc Hd. pose proof (of_uint_acc_lower d acc) as Hl. rewrite Hd in Hl.
    assert (H : (10 ^ Z.of_nat (Decimal.nb_digits d) < 10 ^ Z.of_nat k)%Z).
    { assert (0 < 10 ^ Z.of_nat (Decimal.nb_digits d))%Z by (apply Z.pow_pos_nonneg; lia). nia. }
    apply Z.pow_lt_mono_r_iff in H; lia. }
  destruct (Pos.to_uint p) as [|d|d|d|d|d|d|d|d|d|d] eqn:E;
    cbn [Pos.of_uint Decimal.nb_digits] in *;
    try (injection Hof as Hof; apply Hlow in Hof; lia).
  - lia.
  - exfalso. unfold Decimal.unorm in Hn. cbn [Decimal.nzhead] in Hn.
    destruct (Decimal.nzhead d) eqn:En;
      try (apply (DecimalFacts.nzhead_nonzero d d); rewrite En; symmetry; exact Hn).
    apply Hz. exact Hn.
Qed.

Lemma repeat_zero_length n : String.length (repeat_zero n) = n.
Proof. induction n; simpl; congruence. Qed.

Lemma repeat_zero_digits n : forallb is_digit (list_ascii_of_string (repeat_zero n)) = true.
Proof. induction n; simpl; auto. Qed.

Lemma list_ascii_of_string_app s t :
  list_ascii_of_string (s ++ t) = (list_ascii_of_string s ++ list_ascii_of_string t)%list.
Proof. induction s as [|a s IH]; simpl; [reflexivity | rewrite IH; reflexivity]. Qed.

Lemma length_append_string s t :
  String.length (s ++ t) = (String.length s + String.length t)%nat.
Proof. induction s as [|a s IH]; simpl; [reflexivity | rewrite IH; reflexivity]. Qed.

Lemma zfill_digits width s :
  forallb is_digit (list_ascii_of_string s) = true ->
  (String.length s <= width)%nat ->
  String.length (zfill width s) = width /\
  forallb is_digit (list_ascii_of_string (zfill width s)) = true.
Proof.
  intros Hd Hl. unfold zfill. destruct s as [|c rest].
  - simpl. rewrite Nat.sub_0_r. split; [apply repeat_zero_length | apply repeat_zero_digits].
  - assert (Hc : (Ascii.eqb c "+" || Ascii.eqb c "-")%bool = false).
    { simpl in Hd. apply andb_true_iff in Hd as [Hc _].
      destruct (Ascii.eqb_spec c "+") as [->|]; [discriminate Hc|].
      destruct (Ascii.eqb_spec c "-") as [->|]; [discriminate Hc|]. reflexivity. }
    rewrite Hc. rewrite length_append_string, repeat_zero_length, list_ascii_of_string_app,
      forallb_app, repeat_zero_digits, Hd. split; [lia | reflexivity].
Qed.

(** X24.  The key registered for a code is a string of exactly fourteen
    decimal digits, for every number the generator can draw. *)
Theorem secure_key_is_14_digits (rand : Z) :
  0 <= rand < 10 ^ 14 ->
  String.length (secure_key_of rand) = 14%nat /\
  forallb is_digit (list_ascii_of_string (secure_key_of rand)) = true.
Proof.
  intros Hr. unfold secure_key_of. apply zfill_digits.
  - unfold str_of_Z. destruct rand as [|p|p]; [reflexivity| |lia].
    cbn [Z.to_int NilZero.string_of_int].
    pose proof (DecimalPos.Unsigned.to_uint_nonnil p) as Hnil.
    unfold NilZero.string_of_uint. destruct (Pos.to_uint p) eqn:E; [contradiction|..];
      rewrite <- E; apply string_of_uint_digits.
  - unfold str_of_Z. destruct rand as [|p|p]; [simpl; lia| |lia].
    cbn [Z.to_int NilZero.string_of_int].
    pose proof (DecimalPos.Unsigned.to_uint_nonnil p) as Hnil.
    pose proof (to_uint_digits_bound p 14) as Hb.
    unfold NilZero.string_of_uint. destruct (Pos.to_uint p) eqn:E; [contradiction|..];
      rewrite <- E in *; rewrite string_of_uint_length; apply Hb; simpl; lia.
Qed.

Lemma secure_key_is_14_digits_witness :
  String.length (secure_key_of 42) = 14%nat /\
  forallb is_digit (list_ascii_of_string (secure_key_of 42)) = true.
Proof. apply secure_key_is_14_digits. lia. Defined.
